(** * rabbitmq-custom-exporter: circuit breaker, snapshot cache and derived metrics

    A shallow embedding of the exporter's core:
    - package [rabbitmq]: the queue record and its derived accessors, the
      management-API client with its circuit breaker;
    - package [metrics]: the metric families and [ResetQueueMetrics];
    - package [main]: the collector (background poll, cache, scrape).

    Go's [float64] is Rocq's primitive binary64 float, [int64]/[int] are [Z]
    with the wrap-around written where the code does arithmetic, [time.Time]
    is an instant in nanoseconds, and a [*prometheus.GaugeVec] is a finite map
    from label values to a sample. *)

From Stdlib Require Import ZArith Bool List String Ascii Lia Floats.
From stdpp Require Import gmap strings list fin_maps.

Set Warnings "-inexact-float,-clear-no-such-hyp".
Local Open Scope Z_scope.

(** ** Go's numeric conversions and the [time] package *)

Module GoTime.

(** An instant: nanoseconds since the Unix epoch.  *)
Definition Time := Z.
(** [time.Duration] is an [int64] count of nanoseconds. *)
Definition Duration := Z.

Definition minDuration : Duration := - 2 ^ 63.
Definition maxDuration : Duration := 2 ^ 63 - 1.

(** Two's-complement wrap-around of [int64] arithmetic. *)
Definition wrap64 (z : Z) : Z := (z + 2 ^ 63) mod 2 ^ 64 - 2 ^ 63.

(** The zero [time.Time] (January 1, year 1, 00:00 UTC). *)
Definition zeroTime : Time := - 62135596800 * 1000000000.

(** [t.Sub(u)]: the difference, saturated to the range of [Duration]. *)
Definition Sub (t u : Time) : Duration :=
  Z.max minDuration (Z.min maxDuration (t - u)).

(** [time.Since(t)] evaluated when the clock reads [now]. *)
Definition Since (now t : Time) : Duration := Sub now t.

Definition Nanosecond : Duration := 1.
Definition Millisecond : Duration := 1000000.
Definition Second : Duration := 1000000000.
Definition Minute : Duration := 60 * Second.

(** [float64(n)] for an [int64] (or [int]) [n]: round to nearest even. *)
Definition float64 (n : Z) : float :=
  if n <? 0 then
    if n =? - 2 ^ 63 then (- 0x1p63)%float
    else (- PrimFloat.of_uint63 (Uint63.of_Z (- n)))%float
  else PrimFloat.of_uint63 (Uint63.of_Z n).

(** [d.Seconds()]. *)
Definition Seconds (d : Duration) : float :=
  (float64 (Z.quot d Second) + float64 (Z.rem d Second) / 1e9)%float.

End GoTime.

(** ** Package rabbitmq: queue records *)

Module rabbitmq.
Import GoTime.

(** A decoded JSON value ([interface{}]); the exporter only ever looks at
    whether a key is present and whether a value is a string. *)
Inductive any : Type :=
| AnyNull
| AnyBool (b : bool)
| AnyNumber (f : float)
| AnyString (s : string)
| AnyComposite.

Record RateDetails := { Rate : float }.

Record MessageStats := {
  Publish : Z;
  PublishDetails : option RateDetails;
  Deliver : Z;
  DeliverDetails : option RateDetails;
  Ack : Z;
  AckDetails : option RateDetails;
  Redeliver : Z;
  RedeliverDetails : option RateDetails
}.

Record Queue := {
  Name : string;
  Vhost : string;
  Messages : Z;
  MessagesReady : Z;
  MessagesUnacknowledged : Z;
  Consumers : Z;
  ConsumerUtilisation : float;
  Stats : option MessageStats;       (* MessageStats *MessageStats *)
  Arguments : gmap string any;
  State : string;
  IdleSince : option Time
}.

Inductive QueueState := QueueStateIdle | QueueStateActive | QueueStateBlocked.

(** [string(state)] *)
Definition QueueState_string (s : QueueState) : string :=
  match s with
  | QueueStateIdle => "idle"
  | QueueStateActive => "active"
  | QueueStateBlocked => "blocked"
  end.

(** [len(name) >= n && name[len(name)-n:] == suffix] with [n = len(suffix)] *)
Definition hasSuffix (name suffix : string) : bool :=
  let n := String.length suffix in
  let l := String.length name in
  (n <=? l)%nat && String.eqb (String.substring (l - n) n name) suffix.

Definition IsDeadLetterQueue (q : Queue) : bool :=
  match Arguments q !! "x-dead-letter-exchange"%string with
  | Some _ => true
  | None =>
      if hasSuffix (Name q) ".dlq" then true
      else if hasSuffix (Name q) ".dead" then true
      else if hasSuffix (Name q) ".deadletter" then true
      else false
  end.

Definition GetQueueState (q : Queue) : QueueState :=
  let idle :=
    if Consumers q =? 0 then
      if Messages q =? 0 then true
      else
        match Stats q with
        | Some ms =>
            match PublishDetails ms with
            | Some pd => (Rate pd <? 0.01)%float
            | None => false
            end
        | None => false
        end
    else false in
  if idle then QueueStateIdle
  else
    let blocked :=
      if (0 <? Consumers q) && (0 <? Messages q) then
        match Stats q with
        | Some ms =>
            match DeliverDetails ms with
            | Some dd =>
                let deliveryRate := Rate dd in
                let publishRate :=
                  match PublishDetails ms with
                  | Some pd => Rate pd
                  | None => 0%float
                  end in
                (deliveryRate <? 0.1)%float && (1.0 <? publishRate)%float
            | None => false
            end
        | None => false
        end
      else false in
    if blocked then QueueStateBlocked else QueueStateActive.

Definition GetPublishRate (q : Queue) : float :=
  match Stats q with
  | Some ms => match PublishDetails ms with Some d => Rate d | None => 0%float end
  | None => 0%float
  end.

Definition GetDeliverRate (q : Queue) : float :=
  match Stats q with
  | Some ms => match DeliverDetails ms with Some d => Rate d | None => 0%float end
  | None => 0%float
  end.

Definition GetAckRate (q : Queue) : float :=
  match Stats q with
  | Some ms => match AckDetails ms with Some d => Rate d | None => 0%float end
  | None => 0%float
  end.

Definition GetRedeliverRate (q : Queue) : float :=
  match Stats q with
  | Some ms => match RedeliverDetails ms with Some d => Rate d | None => 0%float end
  | None => 0%float
  end.

Definition GetTotalRedeliveries (q : Queue) : Z :=
  match Stats q with
  | Some ms => Redeliver ms
  | None => 0
  end.


(** *** The management-API client and its circuit breaker *)

Record APIError := { ErrorMsg : string; Reason : string }.

Definition APIError_Error (e : APIError) : string :=
  ErrorMsg e +:+ ": " +:+ Reason e.

(** [ctx.Err()] once the context is done. *)
Inductive ctxError := Canceled | DeadlineExceeded.

(** The errors the client returns, one constructor per [fmt.Errorf] (or
    returned value) of the source. *)
Inductive error :=
| ErrCircuitOpen                                  (* "circuit breaker is open - too many recent failures" *)
| ErrCreateRequest (cause : string)               (* "failed to create request: %w" *)
| ErrRequestFailed (attempt : Z) (cause : string) (* "request failed (attempt %d): %w" *)
| ErrContext (e : ctxError)                       (* ctx.Err() *)
| ErrReadBody (cause : string)                    (* "failed to read response body: %w" *)
| ErrAPI (e : APIError)                           (* &apiErr *)
| ErrHTTPStatus (code : Z) (body : string)        (* "HTTP %d: %s" *)
| ErrUnmarshalQueues (cause : string)             (* "failed to unmarshal queues: %w" *)
| ErrCreateHealthRequest (cause : string)         (* "failed to create health check request: %w" *)
| ErrHealthCheckFailed (cause : string)           (* "health check failed: %w" *)
| ErrHealthCheckStatus (code : Z).                (* "health check failed with status: %d" *)

Record Client := {
  baseURL : string;
  username : string;
  password : string;
  httpTimeout : Duration;          (* httpClient.Timeout *)
  (* Circuit breaker state *)
  failureCount : Z;
  lastFailureTime : Time;
  circuitOpen : bool;
  (* Configuration *)
  maxFailures : Z;
  resetTimeout : Duration;
  requestTimeout : Duration
}.

Definition NewClient (baseURL username password : string) (timeout : Duration) : Client :=
  let baseURL := if String.eqb baseURL "" then "http://localhost:15672"%string else baseURL in
  let username := if String.eqb username "" then "guest"%string else username in
  let password := if String.eqb password "" then "guest"%string else password in
  let timeout := if timeout <=? 0 then 10 * Second else timeout in
  {| baseURL := baseURL; username := username; password := password;
     httpTimeout := timeout;
     failureCount := 0; lastFailureTime := zeroTime; circuitOpen := false;
     maxFailures := 5; resetTimeout := 60 * Second; requestTimeout := timeout |}.

(** Assignment to the three breaker fields; everything else is kept. *)
Definition setBreaker (c : Client) (count : Z) (last : Time) (open : bool) : Client :=
  {| baseURL := baseURL c; username := username c; password := password c;
     httpTimeout := httpTimeout c;
     failureCount := count; lastFailureTime := last; circuitOpen := open;
     maxFailures := maxFailures c; resetTimeout := resetTimeout c;
     requestTimeout := requestTimeout c |}.

(** What a call does that the breaker accounting cares about. *)
Inductive Event :=
| EvHTTPDo (url : string) (attempt : Z)   (* c.httpClient.Do(req) *)
| EvRecordFailure                         (* c.recordFailure() *)
| EvRecordSuccess.                        (* c.recordSuccess() *)

(** Client methods: the receiver's state is threaded, the events are logged. *)
Definition M (A : Type) : Type := Client -> A * Client * list Event.

Definition ret {A} (a : A) : M A := fun c => (a, c, []).

Definition bind {A B} (m : M A) (k : A -> M B) : M B := fun c =>
  let '(a, c1, l1) := m c in
  let '(b, c2, l2) := k a c1 in
  (b, c2, l1 ++ l2).

Definition self : M Client := fun c => (c, c, []).

Notation "'let*' x ':=' m 'in' k" := (bind m (fun x => k))
  (at level 10, x name, m at level 100, k at level 200).
Notation "m ';;;' k" := (bind m (fun _ => k))
  (at level 100, k at level 200, right associativity).

Definition isCircuitOpen (now : Time) : M bool := fun c =>
  if negb (circuitOpen c) then (false, c, [])
  else if resetTimeout c <? Since now (lastFailureTime c) then
    (false, setBreaker c 0 (lastFailureTime c) false, [])
  else (true, c, []).

Definition recordFailure (now : Time) : M unit := fun c =>
  let count := wrap64 (failureCount c + 1) in
  let open := if maxFailures c <=? count then true else circuitOpen c in
  (tt, setBreaker c count now open, [EvRecordFailure]).

Definition recordSuccess : M unit := fun c =>
  (tt, setBreaker c 0 (lastFailureTime c) false, [EvRecordSuccess]).

Definition GetCircuitBreakerStatus (c : Client) : bool * Z * Time :=
  (circuitOpen c, failureCount c, lastFailureTime c).

(** An HTTP response: the status, the bytes the body stream delivers, and
    the error (if any) that ends the stream instead of a clean EOF. *)
Record Response := { StatusCode : Z; Body : string; BodyErr : option string }.

(** The two ways [httpClient.Do] returns: a response and no error, or an
    error (with a response only when a redirect policy failed). *)
Inductive DoResult :=
| DoOk (resp : Response)
| DoErr (resp : option Response) (cause : string).

(** What the world does during one call of the client. *)
Record CallEnv := {
  now_enter : Time;                  (* clock when the breaker is consulted *)
  now_exit : Time;                   (* clock when the outcome is recorded *)
  do_result : Z -> DoResult;         (* what Do returns at each attempt *)
  ctx_done : Z -> option ctxError    (* Some e: ctx.Done() wins the select
                                        of the backoff after that attempt *)
}.

Definition httpDo (env : CallEnv) (url : string) (attempt : Z) : M DoResult :=
  fun c => (do_result env attempt, c, [EvHTTPDo url attempt]).

(** [io.ReadAll(io.LimitReader(body, n))] *)
Fixpoint limitRead (n : N) (body : string) (err : option string) : string * option string :=
  if (n =? 0)%N then (EmptyString, None)
  else
    match body with
    | EmptyString => (EmptyString, err)
    | String b rest =>
        let '(read, e) := limitRead (N.pred n) rest err in (String b read, e)
    end.

Definition StatusOK : Z := 200.

(** How the retry loop of [GetQueues] is left. *)
Inductive LoopExit :=
| LoopReturn (e : error)                                   (* return nil, ctx.Err() *)
| LoopDone (resp : option Response) (lastErr : option error).

Section Client.

(** Library functions the client calls; their results depend on their
    arguments only. *)
(** [http.NewRequestWithContext(ctx, method, url, nil)]: the error, if any. *)
Variable http_NewRequest : string -> string -> option string.
(** [json.Unmarshal(body, &queues)]: the error or the decoded queues. *)
Variable json_Unmarshal_Queues : string -> string + list Queue.
(** [json.Unmarshal(data, &raw)] for [raw map[string]interface{}]. *)
Variable json_Unmarshal_object : string -> option (gmap string any).

Definition APIError_UnmarshalJSON (data : string) : option APIError :=
  match json_Unmarshal_object data with
  | None => None
  | Some raw =>
      let ErrorMsg := match raw !! "error"%string with Some (AnyString s) => s | _ => ""%string end in
      let Reason := match raw !! "reason"%string with Some (AnyString s) => s | _ => ""%string end in
      Some {| ErrorMsg := ErrorMsg; Reason := Reason |}
  end.

(** [for attempt := 0; attempt < 2; attempt++ { ... }]; [fuel] bounds the
    iterations that are left. *)
Fixpoint retryLoop (env : CallEnv) (url : string) (fuel : nat) (attempt : Z)
    (resp : option Response) (lastErr : option error) : M LoopExit :=
  match fuel with
  | O => ret (LoopDone resp lastErr)
  | S fuel' =>
      if attempt <? 2 then
        let* r := httpDo env url attempt in
        match r with
        | DoErr resp' cause =>
            let lastErr' := Some (ErrRequestFailed (attempt + 1) cause) in
            if attempt <? 1 then
              match ctx_done env attempt with
              | Some e => ret (LoopReturn (ErrContext e))
              | None => retryLoop env url fuel' (attempt + 1) resp' lastErr'
              end
            else retryLoop env url fuel' (attempt + 1) resp' lastErr'
        | DoOk resp' => ret (LoopDone (Some resp') lastErr)
        end
      else ret (LoopDone resp lastErr)
  end.

Definition GetQueues (env : CallEnv) : M (list Queue * option error) :=
  let* open := isCircuitOpen (now_enter env) in
  if open then ret ([], Some ErrCircuitOpen)
  else
    let* c := self in
    let url := baseURL c +:+ "/api/queues" in
    match http_NewRequest "GET" url with
    | Some cause =>
        recordFailure (now_exit env) ;;;
        ret ([], Some (ErrCreateRequest cause))
    | None =>
        let* exit := retryLoop env url 2 0 None None in
        match exit with
        | LoopReturn e => ret ([], Some e)
        | LoopDone None lastErr =>
            recordFailure (now_exit env) ;;;
            ret ([], lastErr)
        | LoopDone (Some resp) _ =>
            let '(body, err) := limitRead (10 * 1024 * 1024) (Body resp) (BodyErr resp) in
            match err with
            | Some cause =>
                recordFailure (now_exit env) ;;;
                ret ([], Some (ErrReadBody cause))
            | None =>
                if negb (StatusCode resp =? StatusOK) then
                  recordFailure (now_exit env) ;;;
                  match APIError_UnmarshalJSON body with
                  | Some apiErr => ret ([], Some (ErrAPI apiErr))
                  | None => ret ([], Some (ErrHTTPStatus (StatusCode resp) body))
                  end
                else
                  match json_Unmarshal_Queues body with
                  | inl cause =>
                      recordFailure (now_exit env) ;;;
                      ret ([], Some (ErrUnmarshalQueues cause))
                  | inr queues =>
                      recordSuccess ;;;
                      ret (queues, None)
                  end
            end
        end
    end.

Definition HealthCheck (env : CallEnv) : M (option error) :=
  let* open := isCircuitOpen (now_enter env) in
  if open then ret (Some ErrCircuitOpen)
  else
    let* c := self in
    let url := baseURL c +:+ "/api/overview" in
    match http_NewRequest "GET" url with
    | Some cause =>
        recordFailure (now_exit env) ;;;
        ret (Some (ErrCreateHealthRequest cause))
    | None =>
        let* r := httpDo env url 0 in
        match r with
        | DoErr _ cause =>
            recordFailure (now_exit env) ;;;
            ret (Some (ErrHealthCheckFailed cause))
        | DoOk resp =>
            if negb (StatusCode resp =? StatusOK) then
              recordFailure (now_exit env) ;;;
              ret (Some (ErrHealthCheckStatus (StatusCode resp)))
            else
              recordSuccess ;;;
              ret None
        end
    end.

(** The clients a program can hold: built by [NewClient] and used through
    the exported methods. *)
Inductive reachable : Client -> Prop :=
| reach_NewClient url user pass timeout :
    reachable (NewClient url user pass timeout)
| reach_GetQueues env c :
    reachable c -> reachable (snd (fst (GetQueues env c)))
| reach_HealthCheck env c :
    reachable c -> reachable (snd (fst (HealthCheck env c))).

End Client.

(** The spec's [allowRequest()] is the negation of [isCircuitOpen()]; the
    reset it performs is the one of [isCircuitOpen]. *)
Definition allowRequest (now : Time) (c : Client) : bool * Client :=
  let '(open, c', _) := isCircuitOpen now c in (negb open, c').

(** How often an event occurs in a log. *)
Definition isRecord (e : Event) : bool :=
  match e with EvRecordFailure | EvRecordSuccess => true | EvHTTPDo _ _ => false end.
Definition isHTTPDo (e : Event) : bool :=
  match e with EvHTTPDo _ _ => true | _ => false end.
Definition countRecords (l : list Event) : nat := length (List.filter isRecord l).
Definition countHTTPDo (l : list Event) : nat := length (List.filter isHTTPDo l).

End rabbitmq.


(** ** Package metrics: the metric families *)

Module metrics.

(** The fields of [Metrics]; each names one collector. *)
Inductive MetricName :=
| QueueMessages | QueueMessagesReady | QueueMessagesUnacknowledged
| QueueMessagePublishRate | QueueMessageDeliverRate | QueueMessageAckRate
| QueueMessageRedeliverRate
| QueueConsumers | QueueConsumerUtilisation | QueueConsumerCapacity
| QueueState | QueueIsDeadLetter
| QueueHealthScore | QueueDepthAlert | QueueUtilizationAlert
| ScrapeDurationSeconds | ScrapeErrorsTotal
| CircuitBreakerState | CircuitBreakerFailures.

#[export] Instance MetricName_eq_dec : EqDecision MetricName.
Proof. solve_decision. Defined.

(** The dynamic type of a collector. *)
Inductive Kind := GaugeVec | Gauge | CounterVec.

Definition kind (v : MetricName) : Kind :=
  match v with
  | ScrapeDurationSeconds => Gauge
  | ScrapeErrorsTotal | CircuitBreakerFailures => CounterVec
  | _ => GaugeVec
  end.

(** The variable labels each family is declared with in [NewMetrics]. *)
Definition labelNames (v : MetricName) : list string :=
  match v with
  | QueueMessages | QueueState => ["queue_name"; "vhost"; "state"]
  | QueueDepthAlert | QueueUtilizationAlert => ["queue_name"; "vhost"; "severity"]
  | ScrapeDurationSeconds => []
  | ScrapeErrorsTotal => ["error_type"]
  | CircuitBreakerState | CircuitBreakerFailures => ["endpoint"]
  | _ => ["queue_name"; "vhost"]
  end%string.

(** The series of one family: label values to current sample. *)
Abbreviation Series := (gmap (list string) float).

(** The state behind the pointers of a [Metrics] struct. *)
Definition Metrics := MetricName -> Series.

Definition upd (v : MetricName) (s : Series) (m : Metrics) : Metrics :=
  fun v' => if decide (v' = v) then s else m v'.

(** A fresh vector has no series; a plain gauge always has its one sample. *)
Definition NewMetrics : Metrics := fun v =>
  match kind v with
  | Gauge => {[ [] := 0%float ]}
  | _ => ∅
  end.

Definition GetAllCollectors : list MetricName :=
  [ QueueMessages; QueueMessagesReady; QueueMessagesUnacknowledged;
    QueueMessagePublishRate; QueueMessageDeliverRate; QueueMessageAckRate;
    QueueMessageRedeliverRate;
    QueueConsumers; QueueConsumerUtilisation; QueueConsumerCapacity;
    QueueState; QueueIsDeadLetter;
    QueueHealthScore; QueueDepthAlert; QueueUtilizationAlert;
    ScrapeDurationSeconds; ScrapeErrorsTotal;
    CircuitBreakerState; CircuitBreakerFailures ].

Definition GetQueueCollectors : list MetricName :=
  [ QueueMessages; QueueMessagesReady; QueueMessagesUnacknowledged;
    QueueMessagePublishRate; QueueMessageDeliverRate; QueueMessageAckRate;
    QueueMessageRedeliverRate;
    QueueConsumers; QueueConsumerUtilisation; QueueConsumerCapacity;
    QueueState; QueueIsDeadLetter;
    QueueHealthScore; QueueDepthAlert; QueueUtilizationAlert ].

(** [gaugeVec.Reset()] *)
Definition Reset (v : MetricName) (m : Metrics) : Metrics := upd v ∅ m.

Definition ResetQueueMetrics (m : Metrics) : Metrics :=
  fold_left
    (fun m collector =>
       match kind collector with
       | GaugeVec => Reset collector m
       | _ => m
       end)
    GetQueueCollectors m.

(** [vec.WithLabelValues(lvs...)] panics unless it is given one value per
    declared label; [None] is the panic. *)
Definition GaugeSet (v : MetricName) (lvs : list string) (x : float)
    (m : Metrics) : option Metrics :=
  if (length lvs =? length (labelNames v))%nat
  then Some (upd v (<[lvs := x]> (m v)) m)
  else None.

(** [counterVec.WithLabelValues(lvs...).Add(x)]: the series starts at 0, and
    [Add] panics on a negative argument. *)
Definition CounterAdd (v : MetricName) (lvs : list string) (x : float)
    (m : Metrics) : option Metrics :=
  if (length lvs =? length (labelNames v))%nat then
    if (x <? 0)%float then None
    else Some (upd v (<[lvs := (default 0%float (m v !! lvs) + x)%float]> (m v)) m)
  else None.

Definition CounterInc (v : MetricName) (lvs : list string) (m : Metrics) : option Metrics :=
  CounterAdd v lvs 1%float m.

End metrics.

(** ** Package main: the collector *)

Module collector.
Import GoTime rabbitmq metrics.

Record Collector := {
  client : Client;
  metrics : Metrics;
  scrapeInterval : Duration;
  lastScrape : Time;
  cachedQueues : list Queue;
  cacheTimestamp : Time;
  cacheValid : bool;
  collectionError : option error
}.

Definition NewCollector (client : Client) (metrics : Metrics)
    (scrapeInterval : Duration) : Collector :=
  {| client := client; metrics := metrics; scrapeInterval := scrapeInterval;
     lastScrape := zeroTime; cachedQueues := []; cacheTimestamp := zeroTime;
     cacheValid := false; collectionError := None |}.

Definition setClient (c : Collector) (cl : Client) : Collector :=
  {| client := cl; metrics := metrics c; scrapeInterval := scrapeInterval c;
     lastScrape := lastScrape c; cachedQueues := cachedQueues c;
     cacheTimestamp := cacheTimestamp c; cacheValid := cacheValid c;
     collectionError := collectionError c |}.

Definition setMetrics (c : Collector) (m : Metrics) : Collector :=
  {| client := client c; metrics := m; scrapeInterval := scrapeInterval c;
     lastScrape := lastScrape c; cachedQueues := cachedQueues c;
     cacheTimestamp := cacheTimestamp c; cacheValid := cacheValid c;
     collectionError := collectionError c |}.

(** The write of a failed poll: [collectionError] and [cacheValid] only. *)
Definition publishFailure (c : Collector) (err : error) : Collector :=
  {| client := client c; metrics := metrics c; scrapeInterval := scrapeInterval c;
     lastScrape := lastScrape c; cachedQueues := cachedQueues c;
     cacheTimestamp := cacheTimestamp c; cacheValid := false;
     collectionError := Some err |}.

(** The write of a successful poll. *)
Definition publishSuccess (c : Collector) (queues : list Queue)
    (stamp last : Time) : Collector :=
  {| client := client c; metrics := metrics c; scrapeInterval := scrapeInterval c;
     lastScrape := last; cachedQueues := queues;
     cacheTimestamp := stamp; cacheValid := true;
     collectionError := None |}.

(** The read of the cache under the read lock in [Collect]. *)
Definition get (c : Collector) : list Queue * bool * option error :=
  (cachedQueues c, cacheValid c, collectionError c).

Definition updateCircuitBreakerMetrics (c : Collector) : option Collector :=
  let '(isOpen, failureCount, _) := GetCircuitBreakerStatus (client c) in
  let state := if isOpen : bool then 1.0%float else 0.0%float in
  m ← GaugeSet CircuitBreakerState ["rabbitmq_api"%string] state (metrics c);
  m ← CounterAdd CircuitBreakerFailures ["rabbitmq_api"%string] (float64 failureCount) m;
  Some (setMetrics c m).

(** The clock readings of one poll cycle, next to those of the client call. *)
Record PollEnv := {
  call : CallEnv;
  now_stamp : Time;      (* c.cacheTimestamp = time.Now() *)
  now_last : Time        (* c.lastScrape = time.Now() *)
}.

(** The scores and alerts of [calculateHealthMetrics]. *)
Definition healthScore (queue : Queue) : float :=
  let healthScore := 100.0%float in
  let healthScore := if 1000 <? Messages queue then (healthScore - 20)%float else healthScore in
  let healthScore := if 10000 <? Messages queue then (healthScore - 30)%float else healthScore in
  let healthScore := if (ConsumerUtilisation queue <? 0.1)%float then (healthScore - 25)%float else healthScore in
  let healthScore := if (ConsumerUtilisation queue <? 0.01)%float then (healthScore - 40)%float else healthScore in
  let redeliverRate := GetRedeliverRate queue in
  let healthScore := if (1.0 <? redeliverRate)%float then (healthScore - 15)%float else healthScore in
  let healthScore := if (5.0 <? redeliverRate)%float then (healthScore - 25)%float else healthScore in
  if (healthScore <? 0)%float then 0%float else healthScore.

Definition calculateHealthMetrics (queue : Queue) (labels : list string)
    (m : Metrics) : option Metrics :=
  m ← GaugeSet QueueHealthScore labels (healthScore queue) m;
  m ← GaugeSet QueueDepthAlert (labels ++ ["warning"%string])
        (if 1000 <? Messages queue then 1.0%float else 0.0%float) m;
  m ← GaugeSet QueueDepthAlert (labels ++ ["critical"%string])
        (if 10000 <? Messages queue then 1.0%float else 0.0%float) m;
  m ← GaugeSet QueueUtilizationAlert (labels ++ ["warning"%string])
        (if (ConsumerUtilisation queue <? 0.1)%float then 1.0%float else 0.0%float) m;
  GaugeSet QueueUtilizationAlert (labels ++ ["critical"%string])
        (if (ConsumerUtilisation queue <? 0.01)%float then 1.0%float else 0.0%float) m.

(** [for _, s := range states { ... QueueState ... Set(value) }] *)
Fixpoint setStates (states : list string) (labels : list string)
    (stateStr : string) (m : Metrics) : option Metrics :=
  match states with
  | [] => Some m
  | s :: rest =>
      let value := if String.eqb s stateStr then 1.0%float else 0.0%float in
      let stateLabels := labels ++ [s] in
      m ← GaugeSet QueueState stateLabels value m;
      setStates rest labels stateStr m
  end.

Definition updateQueueMetrics (queue : Queue) (m : Metrics) : option Metrics :=
  let state := GetQueueState queue in
  let stateStr := QueueState_string state in
  let labels := [Name queue; Vhost queue] in
  let labelsWithState := labels ++ [stateStr] in
  m ← GaugeSet QueueMessages labelsWithState (float64 (Messages queue)) m;
  m ← GaugeSet QueueMessagesReady labels (float64 (MessagesReady queue)) m;
  m ← GaugeSet QueueMessagesUnacknowledged labels (float64 (MessagesUnacknowledged queue)) m;
  m ← GaugeSet QueueMessagePublishRate labels (GetPublishRate queue) m;
  m ← GaugeSet QueueMessageDeliverRate labels (GetDeliverRate queue) m;
  m ← GaugeSet QueueMessageAckRate labels (GetAckRate queue) m;
  m ← GaugeSet QueueMessageRedeliverRate labels (GetRedeliverRate queue) m;
  m ← GaugeSet QueueConsumers labels (float64 (Consumers queue)) m;
  m ← GaugeSet QueueConsumerUtilisation labels (ConsumerUtilisation queue) m;
  m ← GaugeSet QueueConsumerCapacity labels (ConsumerUtilisation queue) m;
  m ← setStates ["idle"; "active"; "blocked"]%string labels stateStr m;
  let dlqValue := if IsDeadLetterQueue queue then 1.0%float else 0.0%float in
  m ← GaugeSet QueueIsDeadLetter labels dlqValue m;
  calculateHealthMetrics queue labels m.

(** [for _, queue := range queues { c.updateQueueMetrics(queue) }] *)
Fixpoint updateAllQueues (queues : list Queue) (m : Metrics) : option Metrics :=
  match queues with
  | [] => Some m
  | queue :: rest =>
      m ← updateQueueMetrics queue m;
      updateAllQueues rest m
  end.

(** What a scrape hands to the registry: every collector with its series. *)
Definition collectMetrics (m : Metrics) : list (MetricName * Series) :=
  List.map (fun collector => (collector, m collector)) GetAllCollectors.

(** The clock readings of one scrape. *)
Record ScrapeEnv := {
  now_start : Time;      (* start := time.Now() *)
  now_check : Time;      (* time.Since(c.cacheTimestamp) *)
  now_end : Time         (* time.Since(start) *)
}.

(** The staleness test of [Collect]. *)
Definition isStale (env : ScrapeEnv) (c : Collector) : bool :=
  negb (cacheValid c)
  || (wrap64 (scrapeInterval c * 2) <? Since (now_check env) (cacheTimestamp c)).

Definition Collect (env : ScrapeEnv) (c : Collector)
    : option (Collector * list (MetricName * Series)) :=
  let start := now_start env in
  let m := ResetQueueMetrics (metrics c) in
  let '(queues, cacheValid, collectionError) := get c in
  if negb cacheValid
     || (wrap64 (scrapeInterval c * 2) <? Since (now_check env) (cacheTimestamp c))
  then
    m ← match collectionError with
        | Some _ => CounterInc ScrapeErrorsTotal ["api_error"%string] m
        | None => Some m
        end;
    m ← GaugeSet ScrapeDurationSeconds [] (Seconds (Since (now_end env) start)) m;
    Some (setMetrics c m, collectMetrics m)
  else
    m ← updateAllQueues queues m;
    m ← GaugeSet ScrapeDurationSeconds [] (Seconds (Since (now_end env) start)) m;
    Some (setMetrics c m, collectMetrics m).

Section Poller.
Variable http_NewRequest : string -> string -> option string.
Variable json_Unmarshal_Queues : string -> string + list Queue.
Variable json_Unmarshal_object : string -> option (gmap string any).

(** One cycle of the background poller. The [log.Printf] of the failure
    branch writes to the process log only and is left out. *)
Definition collectQueueData (env : PollEnv) (c : Collector)
    : option (Collector * list Event) :=
  let '(queues, err, cl, events) :=
    GetQueues http_NewRequest json_Unmarshal_Queues json_Unmarshal_object
      (call env) (client c) in
  let c := setClient c cl in
  match err with
  | Some err => Some (publishFailure c err, events)
  | None =>
      let c := publishSuccess c queues (now_stamp env) (now_last env) in
      c ← updateCircuitBreakerMetrics c;
      Some (c, events)
  end.

(** The [/health] handler's call on the shared client. *)
Definition healthHandler (env : CallEnv) (c : Collector)
    : Collector * option error :=
  let '(err, cl, _) := HealthCheck http_NewRequest env (client c) in
  (setClient c cl, err).

End Poller.

End collector.

(** ** Notions the statements below are written with *)

Import GoTime rabbitmq metrics collector.

(** *** Queue state *)

(** The classification as the specification words it: the rates are the
    accessors' values, 0 when absent. *)
Definition QueueState_spec (q : Queue) : rabbitmq.QueueState :=
  if (Consumers q =? 0)
     && ((Messages q =? 0) || (GetPublishRate q <? 0.01)%float)
  then QueueStateIdle
  else if (0 <? Consumers q) && (0 <? Messages q)
          && (GetDeliverRate q <? 0.1)%float && (1.0 <? GetPublishRate q)%float
  then QueueStateBlocked
  else QueueStateActive.

Definition hasPublishDetails (q : Queue) : bool :=
  match Stats q with
  | Some ms => match PublishDetails ms with Some _ => true | None => false end
  | None => false
  end.

Definition hasDeliverDetails (q : Queue) : bool :=
  match Stats q with
  | Some ms => match DeliverDetails ms with Some _ => true | None => false end
  | None => false
  end.

(** The classification with the presence tests the code makes: a rate that
    is absent never makes a queue idle or blocked. *)
Definition QueueState_amended (q : Queue) : rabbitmq.QueueState :=
  if (Consumers q =? 0)
     && ((Messages q =? 0)
         || (hasPublishDetails q && (GetPublishRate q <? 0.01)%float))
  then QueueStateIdle
  else if (0 <? Consumers q) && (0 <? Messages q) && hasDeliverDetails q
          && (GetDeliverRate q <? 0.1)%float && (1.0 <? GetPublishRate q)%float
  then QueueStateBlocked
  else QueueStateActive.

(** *** Health score *)

(** The cumulative deductions, as an integer. *)
Definition deductions (q : Queue) : Z :=
  (if 1000 <? Messages q then 20 else 0)
  + (if 10000 <? Messages q then 30 else 0)
  + (if (ConsumerUtilisation q <? 0.1)%float then 25 else 0)
  + (if (ConsumerUtilisation q <? 0.01)%float then 40 else 0)
  + (if (1.0 <? GetRedeliverRate q)%float then 15 else 0)
  + (if (5.0 <? GetRedeliverRate q)%float then 25 else 0).

(** [a] is at most [b]: the same value, or below it in the IEEE order. *)
Definition float_le (a b : float) : Prop := a = b \/ (a <=? b)%float = true.

(** *** Circuit breaker *)

(** What holds of the breaker of every client a program can hold. *)
Definition breakerInv (c : Client) : Prop :=
  maxFailures c = 5 /\ resetTimeout c = 60 * Second
  /\ 0 <= failureCount c <= 5
  /\ (circuitOpen c = true <-> failureCount c = 5).

(** How a call of [GetQueues] on client [c] ends: with the result, the client
    it leaves and the events it logged. *)
Inductive Outcome (env : CallEnv) (c : Client)
    : list Queue * option error * Client * list Event -> Prop :=
| OutRejected :
    isCircuitOpen (now_enter env) c = (true, c, []) ->
    Outcome env c ([], Some ErrCircuitOpen, c, [])
| OutAbandoned c1 e log :
    isCircuitOpen (now_enter env) c = (false, c1, []) ->
    countRecords log = 0%nat ->
    countHTTPDo log = 1%nat ->
    Outcome env c ([], Some (ErrContext e), c1, log)
| OutFailed c1 e log :
    isCircuitOpen (now_enter env) c = (false, c1, []) ->
    countRecords log = 1%nat ->
    In EvRecordFailure log ->
    e <> ErrCircuitOpen ->
    Outcome env c ([], Some e, snd (fst (recordFailure (now_exit env) c1)), log)
| OutSucceeded c1 queues log :
    isCircuitOpen (now_enter env) c = (false, c1, []) ->
    countRecords log = 1%nat ->
    In EvRecordSuccess log ->
    Outcome env c (queues, None, snd (fst (recordSuccess c1)), log).

(** *** Rendered measurements *)

(** [labels := []string{queue.Name, queue.Vhost}] *)
Definition labelsOf (q : Queue) : list string := [Name q; Vhost q].

Definition flag (b : bool) : float := if b then 1.0%float else 0.0%float.

(** The set of queue-scoped measurements of one record: for each family,
    the samples [updateQueueMetrics] writes, in the order it writes them. *)
Definition samples (v : MetricName) (q : Queue) : list (list string * float) :=
  match v with
  | QueueMessages =>
      [(labelsOf q ++ [QueueState_string (GetQueueState q)], float64 (Messages q))]
  | QueueMessagesReady => [(labelsOf q, float64 (MessagesReady q))]
  | QueueMessagesUnacknowledged => [(labelsOf q, float64 (MessagesUnacknowledged q))]
  | QueueMessagePublishRate => [(labelsOf q, GetPublishRate q)]
  | QueueMessageDeliverRate => [(labelsOf q, GetDeliverRate q)]
  | QueueMessageAckRate => [(labelsOf q, GetAckRate q)]
  | QueueMessageRedeliverRate => [(labelsOf q, GetRedeliverRate q)]
  | QueueConsumers => [(labelsOf q, float64 (Consumers q))]
  | QueueConsumerUtilisation => [(labelsOf q, ConsumerUtilisation q)]
  | QueueConsumerCapacity => [(labelsOf q, ConsumerUtilisation q)]
  | QueueState =>
      let stateStr := QueueState_string (GetQueueState q) in
      [(labelsOf q ++ ["idle"%string], flag (String.eqb "idle" stateStr));
       (labelsOf q ++ ["active"%string], flag (String.eqb "active" stateStr));
       (labelsOf q ++ ["blocked"%string], flag (String.eqb "blocked" stateStr))]
  | QueueIsDeadLetter => [(labelsOf q, flag (IsDeadLetterQueue q))]
  | QueueHealthScore => [(labelsOf q, healthScore q)]
  | QueueDepthAlert =>
      [(labelsOf q ++ ["warning"%string], flag (1000 <? Messages q));
       (labelsOf q ++ ["critical"%string], flag (10000 <? Messages q))]
  | QueueUtilizationAlert =>
      [(labelsOf q ++ ["warning"%string], flag (ConsumerUtilisation q <? 0.1)%float);
       (labelsOf q ++ ["critical"%string], flag (ConsumerUtilisation q <? 0.01)%float)]
  | ScrapeDurationSeconds | ScrapeErrorsTotal
  | CircuitBreakerState | CircuitBreakerFailures => []
  end.

(** The number of series one record has in a queue-scoped family. *)
Definition seriesPerQueue (v : MetricName) : nat :=
  match v with
  | QueueState => 3
  | QueueDepthAlert | QueueUtilizationAlert => 2
  | ScrapeDurationSeconds | ScrapeErrorsTotal
  | CircuitBreakerState | CircuitBreakerFailures => 0
  | _ => 1
  end.

(** Writing samples into a family one after the other. *)
Definition writeAll (l : list (list string * float)) (s : Series) : Series :=
  fold_left (fun s kx => <[kx.1 := kx.2]> s) l s.

(** The requests served between two polls: scrapes of [/metrics] and calls
    of [/health], in any order. *)
Inductive Request :=
| ReqMetrics (env : ScrapeEnv)
| ReqHealth (env : CallEnv).

Fixpoint serve (http_NewRequest : string -> string -> option string)
    (reqs : list Request) (c : Collector) : option Collector :=
  match reqs with
  | [] => Some c
  | ReqMetrics env :: rest =>
      r ← Collect env c; serve http_NewRequest rest r.1
  | ReqHealth env :: rest =>
      serve http_NewRequest rest (healthHandler http_NewRequest env c).1
  end.

(** *** Concrete records, environments and library behaviours *)

Definition mkStats (publish deliver redeliver : option float) : MessageStats :=
  {| Publish := 0; PublishDetails := (fun r => {| Rate := r |}) <$> publish;
     Deliver := 0; DeliverDetails := (fun r => {| Rate := r |}) <$> deliver;
     Ack := 0; AckDetails := None;
     Redeliver := 0; RedeliverDetails := (fun r => {| Rate := r |}) <$> redeliver |}.

Definition mkQueue (name : string) (consumers messages : Z) (utilisation : float)
    (stats : option MessageStats) : Queue :=
  {| Name := name; Vhost := "/"; Messages := messages; MessagesReady := messages;
     MessagesUnacknowledged := 0; Consumers := consumers;
     ConsumerUtilisation := utilisation; Stats := stats; Arguments := ∅;
     State := ""; IdleSince := None |}.

(** The three records of [TestQueue_GetQueueState]. *)
Definition q_idle : Queue := mkQueue "idle_queue" 0 0 0%float None.
Definition q_active : Queue :=
  mkQueue "active_queue" 2 10 0%float (Some (mkStats None (Some 5.0%float) None)).
Definition q_blocked : Queue :=
  mkQueue "blocked_queue" 1 15 0%float
    (Some (mkStats (Some 5.0%float) (Some 0.0%float) None)).

(** A backlog without consumers and without [message_stats]. *)
Definition q_backlog : Queue := mkQueue "backlog" 0 5 0%float None.
(** Consumers, a backlog, a publish rate, and no [deliver_details]. *)
Definition q_undelivered : Queue :=
  mkQueue "undelivered" 1 15 0%float (Some (mkStats (Some 5.0%float) None None)).
(** A deep, unconsumed queue with many redeliveries. *)
Definition q_unhealthy : Queue :=
  mkQueue "orders" 3 20000 0.005%float
    (Some (mkStats (Some 9.0%float) (Some 0.5%float) (Some 7.5%float))).
Definition q_healthy : Queue :=
  mkQueue "payments" 3 10 0.9%float
    (Some (mkStats (Some 9.0%float) (Some 9.0%float) (Some 0.0%float))).

(** Library behaviours: every request can be built; the body [body_two]
    (standing for the broker's JSON array of the two queues above) decodes to
    them and no other body decodes. *)
Definition newRequest_ok : string -> string -> option string := fun _ _ => None.
Definition body_two : string := "[payments, orders]".
Definition decode_two : string -> string + list Queue :=
  fun body =>
    if String.eqb body body_two then inr [q_healthy; q_unhealthy]
    else inl "invalid character"%string.
Definition decode_none : string -> option (gmap string any) := fun _ => None.

(** The broker refuses the connection at every attempt, at clock [t]. *)
Definition env_refused (t : Time) : CallEnv :=
  {| now_enter := t; now_exit := t;
     do_result := fun _ => DoErr None "connection refused";
     ctx_done := fun _ => None |}.

(** The first attempt fails and the context's deadline passes during the
    backoff that follows. *)
Definition env_deadline (t : Time) : CallEnv :=
  {| now_enter := t; now_exit := t;
     do_result := fun _ => DoErr None "context deadline exceeded";
     ctx_done := fun _ => Some DeadlineExceeded |}.

(** The broker answers 200 at the first attempt. *)
Definition env_ok (t : Time) : CallEnv :=
  {| now_enter := t; now_exit := t;
     do_result := fun _ =>
       DoOk {| StatusCode := 200; Body := body_two; BodyErr := None |};
     ctx_done := fun _ => None |}.

Definition poll_env (e : CallEnv) : PollEnv :=
  {| call := e; now_stamp := now_exit e; now_last := now_exit e |}.

Definition scrape_at (t : Time) : ScrapeEnv :=
  {| now_start := t; now_check := t; now_end := t |}.

(** Clock readings, in seconds after an arbitrary start of the process. *)
Definition at_s (n : Z) : Time := 1700000000 * Second + n * Second.

Definition client0 : Client :=
  NewClient "http://localhost:15672" "guest" "guest" (10 * Second).
Definition collector0 : Collector := NewCollector client0 NewMetrics (15 * Second).
(** A client whose request timeout exceeds the poller's 30s deadline. *)
Definition client_slow : Client :=
  NewClient "http://localhost:15672" "guest" "guest" (60 * Second).

(** Polls of [collector0] one after the other, each with its environment. *)
Fixpoint polls (envs : list PollEnv) (c : Collector) : option Collector :=
  match envs with
  | [] => Some c
  | env :: rest =>
      r ← collectQueueData newRequest_ok decode_two decode_none env c;
      polls rest r.1
  end.

(** The collector after a poll that succeeded at second 0, and after the
    poll that failed at second 15 next. *)
Definition collector_polled : option Collector :=
  polls [poll_env (env_ok (at_s 0))] collector0.
Definition collector_failed : option Collector :=
  polls [poll_env (env_ok (at_s 0)); poll_env (env_refused (at_s 15))] collector0.

(** The number of series each collector hands to the registry. *)
Definition seriesCounts (out : list (MetricName * Series)) : list nat :=
  List.map (fun vs => size (snd vs)) out.

(** Five failed polls in a row, with and without a success before them. *)
Definition five_refused : list PollEnv :=
  List.map (fun n => poll_env (env_refused (at_s n))) [15; 30; 45; 60; 75].
Definition collector_open : option Collector := polls five_refused collector0.
Definition collector_open_after_success : option Collector :=
  polls (poll_env (env_ok (at_s 0)) :: five_refused) collector0.

(** The cache after a poll at second 0 that fetched the two records. *)
Definition collector_fresh : Collector :=
  publishSuccess collector0 [q_healthy; q_unhealthy] (at_s 0) (at_s 0).

(** The same cache after the next poll failed. *)
Definition collector_stale : Collector :=
  publishFailure collector_fresh (ErrRequestFailed 2 "connection refused").


(** *** The paths of a fetch *)

(** The response [GetQueues] goes on with after its retry loop, and the HTTP
    attempts it made to get it: the first attempt's, or after a failed first
    attempt and a backoff the context did not cut short, the second's. *)
Inductive Responded (env : CallEnv) (url : string) : Response -> list Event -> Prop :=
| RespFirst resp :
    do_result env 0 = DoOk resp ->
    Responded env url resp [EvHTTPDo url 0]
| RespRetry r cause resp :
    do_result env 0 = DoErr r cause ->
    ctx_done env 0 = None ->
    (do_result env 1 = DoOk resp
     \/ exists cause1, do_result env 1 = DoErr (Some resp) cause1) ->
    Responded env url resp [EvHTTPDo url 0; EvHTTPDo url 1].

(** Failures recorded one after the other, at the given clock readings. *)
Fixpoint recordFailures (times : list Time) (c : Client) : Client :=
  match times with
  | [] => c
  | t :: rest => recordFailures rest (snd (fst (recordFailure t c)))
  end.

(** The fields of a client that are set at construction. *)
Definition configOf (c : Client)
    : string * string * string * Duration * Z * Duration * Duration :=
  (baseURL c, username c, password c, httpTimeout c, maxFailures c,
   resetTimeout c, requestTimeout c).

(** *** Package main: configuration, endpoints and the poller's loop *)

Record Config := {
  RabbitMQURL : string;
  RabbitMQUsername : string;
  RabbitMQPassword : string;
  ScrapeInterval : Duration;
  ListenPort : Z;
  RequestTimeout : Duration      (* Timeout time.Duration *)
}.

Definition DefaultRabbitMQURL : string := "http://localhost:15672".
Definition DefaultRabbitMQUsername : string := "guest".
Definition DefaultRabbitMQPassword : string := "guest".
Definition DefaultScrapeInterval : Duration := 15 * Second.
Definition DefaultListenPort : Z := 9419.
Definition DefaultTimeout : Duration := 10 * Second.

(** The block of [run] that fills in the fields left at their zero value. *)
Definition run_defaults (config : Config) : Config :=
  {| RabbitMQURL :=
       if String.eqb (RabbitMQURL config) "" then DefaultRabbitMQURL
       else RabbitMQURL config;
     RabbitMQUsername :=
       if String.eqb (RabbitMQUsername config) "" then DefaultRabbitMQUsername
       else RabbitMQUsername config;
     RabbitMQPassword :=
       if String.eqb (RabbitMQPassword config) "" then DefaultRabbitMQPassword
       else RabbitMQPassword config;
     ScrapeInterval :=
       if ScrapeInterval config =? 0 then DefaultScrapeInterval
       else ScrapeInterval config;
     ListenPort :=
       if ListenPort config =? 0 then DefaultListenPort else ListenPort config;
     RequestTimeout :=
       if RequestTimeout config =? 0 then DefaultTimeout
       else RequestTimeout config |}.

Definition StatusServiceUnavailable : Z := 503.

(** The [/health] handler of [run]: the status and the body it writes.
    [http.Error] ends its message with a newline. *)
Definition healthEndpoint (http_NewRequest : string -> string -> option string)
    (env : CallEnv) : M (Z * string) :=
  bind (HealthCheck http_NewRequest env) (fun err =>
    match err with
    | Some _ =>
        ret (StatusServiceUnavailable,
             "Health check failed" +:+ String (ascii_of_nat 10) EmptyString)
    | None => ret (StatusOK, "OK"%string)
    end).

(** What the [select] of the poller receives. *)
Inductive PollerEvent :=
| Tick (env : PollEnv)      (* <-ticker.C *)
| StopSignal.               (* <-c.stopChan *)

Section Service.

Variable http_NewRequest : string -> string -> option string.
Variable json_Unmarshal_Queues : string -> string + list Queue.
Variable json_Unmarshal_object : string -> option (gmap string any).

(** [run] from the defaults to the collector: the client, the health check
    at boot (its error ends [run]), the metrics and the collector. *)
Definition startup (env : CallEnv) (config : Config) : error + Collector :=
  let config := run_defaults config in
  let client := NewClient (RabbitMQURL config) (RabbitMQUsername config)
                  (RabbitMQPassword config) (RequestTimeout config) in
  let '(err, client, _) := HealthCheck http_NewRequest env client in
  match err with
  | Some err => inl err
  | None => inr (NewCollector client NewMetrics (ScrapeInterval config))
  end.

(** The [for { select { ... } }] of [backgroundCollection], over the events
    the select receives. *)
Fixpoint pollerLoop (events : list PollerEvent) (c : Collector) : option Collector :=
  match events with
  | [] => Some c
  | StopSignal :: _ => Some c
  | Tick env :: rest =>
      r ← collectQueueData http_NewRequest json_Unmarshal_Queues
            json_Unmarshal_object env c;
      pollerLoop rest r.1
  end.

(** [backgroundCollection]: [time.NewTicker] panics on a non-positive
    interval, before the loop is entered. *)
Definition backgroundCollection (events : list PollerEvent) (c : Collector)
    : option Collector :=
  if scrapeInterval c <=? 0 then None else pollerLoop events c.

(** The collectors of a running exporter: created over a reachable client
    and fresh metrics, then polled, scraped and health-checked in any order. *)
Inductive running : Collector -> Prop :=
| running_start cl interval :
    reachable http_NewRequest json_Unmarshal_Queues json_Unmarshal_object cl ->
    running (NewCollector cl NewMetrics interval)
| running_poll env c c' events :
    running c ->
    collectQueueData http_NewRequest json_Unmarshal_Queues json_Unmarshal_object
      env c = Some (c', events) ->
    running c'
| running_scrape env c c' out :
    running c -> Collect env c = Some (c', out) -> running c'
| running_health env c :
    running c -> running (healthHandler http_NewRequest env c).1.

End Service.

(** The label values of the two circuit-breaker families. *)
Definition apiKey : list string := ["rabbitmq_api"%string].

(** *** More concrete inputs *)

(** The broker answers 503 with a body that is no JSON object. *)
Definition env_unavailable (t : Time) : CallEnv :=
  {| now_enter := t; now_exit := t;
     do_result := fun _ =>
       DoOk {| StatusCode := 503; Body := "upstream down"; BodyErr := None |};
     ctx_done := fun _ => None |}.

Definition q_dlq : Queue := mkQueue "orders.dlq" 0 3 0%float None.

(** A client after four failed fetches in a row. *)
Definition client_four : Client := setBreaker client0 4 (at_s 60) false.

(** A collector over another client whose cache holds the same two records,
    fetched at second 10. *)
Definition collector_refetched : Collector :=
  publishSuccess (NewCollector client_four NewMetrics (15 * Second))
    [q_healthy; q_unhealthy] (at_s 10) (at_s 10).

(** A configuration with a negative scrape interval. *)
Definition config_negative : Config :=
  {| RabbitMQURL := ""; RabbitMQUsername := ""; RabbitMQPassword := "";
     ScrapeInterval := - (5 * Second); ListenPort := 0; RequestTimeout := 0 |}.


(** * Properties *)

(** ** Queue state classification *)

Lemma GetQueueState_amended (q : Queue) : GetQueueState q = QueueState_amended q.
Proof.
  unfold GetQueueState, QueueState_amended, hasPublishDetails, hasDeliverDetails,
    GetPublishRate, GetDeliverRate.
  destruct (Consumers q =? 0) eqn:Hc, (Messages q =? 0) eqn:Hm; simpl;
    destruct (Stats q) as [[? [pd|] ? [dd|] ? ? ? ?]|]; simpl;
    repeat match goal with
    | |- context [(?a <? ?b)%float] => destruct (a <? b)%float eqn:?
    | |- context [(?a <? ?b)%Z] => destruct (a <? b)%Z eqn:?
    end; simpl; try reflexivity; try lia; try congruence.
  all: try (vm_compute in *; congruence).
Qed.

(** C3, as amended: the derived state is idle if consumers=0 and (messages=0
    or the record has publish-rate details with rate<0.01); blocked if
    consumers>0, messages>0, the record has deliver-rate details with
    rate<0.1, and publish-rate (0 when absent) >1.0; otherwise active. The
    three examples of the claim hold as stated. *)
Theorem C3_queue_state_classification :
  (forall q, GetQueueState q = QueueState_amended q)
  /\ (forall q, Consumers q = 0 -> Messages q = 0 ->
        GetQueueState q = QueueStateIdle)
  /\ (forall q ms, Consumers q = 2 -> Messages q = 10 -> Stats q = Some ms ->
        DeliverDetails ms = Some {| Rate := 5.0%float |} ->
        GetQueueState q = QueueStateActive)
  /\ (forall q ms, Consumers q = 1 -> Messages q = 15 -> Stats q = Some ms ->
        DeliverDetails ms = Some {| Rate := 0.0%float |} ->
        PublishDetails ms = Some {| Rate := 5.0%float |} ->
        GetQueueState q = QueueStateBlocked).
Proof.
  split; [exact GetQueueState_amended|].
  split; [|split].
  - intros q Hc Hm. unfold GetQueueState. rewrite Hc, Hm. reflexivity.
  - intros q ms Hc Hm Hs Hd. unfold GetQueueState. rewrite Hc, Hm, Hs, Hd. reflexivity.
  - intros q ms Hc Hm Hs Hd Hp. unfold GetQueueState.
    rewrite Hc, Hm, Hs, Hd, Hp. reflexivity.
Qed.

Lemma C3_queue_state_classification_witness :
  GetQueueState q_undelivered = QueueStateActive
  /\ GetQueueState q_idle = QueueStateIdle
  /\ GetQueueState q_active = QueueStateActive
  /\ GetQueueState q_blocked = QueueStateBlocked.
Proof.
  destruct C3_queue_state_classification as (H & Hi & Ha & Hb).
  split; [rewrite (H q_undelivered); reflexivity|].
  split; [apply Hi; reflexivity|].
  split.
  - apply (Ha q_active (mkStats None (Some 5.0%float) None)); reflexivity.
  - apply (Hb q_blocked (mkStats (Some 5.0%float) (Some 0.0%float) None)); reflexivity.
Defined.

(** C3 as stated fails: a queue without consumers that holds messages and
    has no message statistics has publish-rate 0 < 0.01, yet is active; a
    consumed queue with a backlog, publish-rate 5.0 and no deliver-rate
    details has deliver-rate 0 < 0.1, yet is active. *)
Lemma C3_counterexample :
  (Consumers q_backlog = 0
   /\ (GetPublishRate q_backlog <? 0.01)%float = true
   /\ QueueState_spec q_backlog = QueueStateIdle
   /\ GetQueueState q_backlog = QueueStateActive)
  /\ (Consumers q_undelivered = 1 /\ Messages q_undelivered = 15
      /\ (GetDeliverRate q_undelivered <? 0.1)%float = true
      /\ (1.0 <? GetPublishRate q_undelivered)%float = true
      /\ QueueState_spec q_undelivered = QueueStateBlocked
      /\ GetQueueState q_undelivered = QueueStateActive).
Proof. vm_compute. repeat split; reflexivity. Qed.

(** ** Health score *)

Section FloatOrder.

(** The order of IEEE comparison is transitive where it is defined. *)
Lemma SFltb_leb_trans a b c :
  SFltb a b = true -> SFleb b c = true -> SFltb a c = true.
Proof.
  unfold SFltb, SFleb, SFcompare.
  destruct a as [sa|sa| |sa ma ea], b as [sb|sb| |sb mb eb],
           c as [sc|sc| |sc mc ec];
    try discriminate; try reflexivity;
    repeat match goal with s : bool |- _ => destruct s end;
    try discriminate; try reflexivity;
    intros H1 H2.
  all: destruct (Z.compare_spec ea eb), (Z.compare_spec eb ec),
         (Z.compare_spec ea ec);
    try discriminate; try reflexivity; try lia; subst.
  all: repeat match goal with
    | H : context [Pos.compare_cont Eq ?x ?y] |- _ =>
        change (Pos.compare_cont Eq x y) with (Pos.compare x y) in H
    | |- context [Pos.compare_cont Eq ?x ?y] =>
        change (Pos.compare_cont Eq x y) with (Pos.compare x y)
    end.
  all: destruct (Pos.compare_spec ma mb), (Pos.compare_spec mb mc),
         (Pos.compare_spec ma mc);
    simpl in *; try discriminate; try reflexivity; try lia.
Qed.

Lemma SFleb_ltb_trans a b c :
  SFleb a b = true -> SFltb b c = true -> SFltb a c = true.
Proof.
  unfold SFltb, SFleb, SFcompare.
  destruct a as [sa|sa| |sa ma ea], b as [sb|sb| |sb mb eb],
           c as [sc|sc| |sc mc ec];
    try discriminate; try reflexivity;
    repeat match goal with s : bool |- _ => destruct s end;
    try discriminate; try reflexivity;
    intros H1 H2.
  all: destruct (Z.compare_spec ea eb), (Z.compare_spec eb ec),
         (Z.compare_spec ea ec);
    try discriminate; try reflexivity; try lia; subst.
  all: repeat match goal with
    | H : context [Pos.compare_cont Eq ?x ?y] |- _ =>
        change (Pos.compare_cont Eq x y) with (Pos.compare x y) in H
    | |- context [Pos.compare_cont Eq ?x ?y] =>
        change (Pos.compare_cont Eq x y) with (Pos.compare x y)
    end.
  all: destruct (Pos.compare_spec ma mb), (Pos.compare_spec mb mc),
         (Pos.compare_spec ma mc);
    simpl in *; try discriminate; try reflexivity; try lia.
Qed.

Lemma above_mono (bound a b : float) :
  float_le a b -> (bound <? a)%float = true -> (bound <? b)%float = true.
Proof.
  intros [->|H]; [auto|]. rewrite !ltb_spec. rewrite leb_spec in H.
  intros L. exact (SFltb_leb_trans _ _ _ L H).
Qed.

Lemma below_mono (bound a b : float) :
  float_le a b -> (b <? bound)%float = true -> (a <? bound)%float = true.
Proof.
  intros [->|H]; [auto|]. rewrite !ltb_spec. rewrite leb_spec in H.
  intros L. exact (SFleb_ltb_trans _ _ _ H L).
Qed.

End FloatOrder.

Lemma healthScore_formula (q : Queue) :
  healthScore q = float64 (Z.max 0 (100 - deductions q)).
Proof.
  unfold healthScore, deductions.
  destruct (1000 <? Messages q), (10000 <? Messages q),
    (ConsumerUtilisation q <? 0.1)%float, (ConsumerUtilisation q <? 0.01)%float,
    (1.0 <? GetRedeliverRate q)%float, (5.0 <? GetRedeliverRate q)%float;
    vm_compute; reflexivity.
Qed.

Lemma healthScore_range (q : Queue) :
  (0 <=? healthScore q)%float = true /\ (healthScore q <=? 100)%float = true.
Proof.
  unfold healthScore.
  destruct (1000 <? Messages q), (10000 <? Messages q),
    (ConsumerUtilisation q <? 0.1)%float, (ConsumerUtilisation q <? 0.01)%float,
    (1.0 <? GetRedeliverRate q)%float, (5.0 <? GetRedeliverRate q)%float;
    vm_compute; auto.
Qed.

Lemma healthScore_mono (q1 q2 : Queue) :
  Messages q1 <= Messages q2 ->
  float_le (ConsumerUtilisation q2) (ConsumerUtilisation q1) ->
  float_le (GetRedeliverRate q1) (GetRedeliverRate q2) ->
  (healthScore q2 <=? healthScore q1)%float = true.
Proof.
  intros Hm Hu Hr.
  assert (M1 : (1000 <? Messages q1) = true -> (1000 <? Messages q2) = true) by lia.
  assert (M2 : (10000 <? Messages q1) = true -> (10000 <? Messages q2) = true) by lia.
  pose proof (below_mono 0.1 _ _ Hu) as U1.
  pose proof (below_mono 0.01 _ _ Hu) as U2.
  pose proof (above_mono 1.0 _ _ Hr) as R1.
  pose proof (above_mono 5.0 _ _ Hr) as R2.
  unfold healthScore. clear Hm Hu Hr.
  destruct (1000 <? Messages q1);
    [rewrite (M1 eq_refl)|destruct (1000 <? Messages q2)];
  (destruct (10000 <? Messages q1);
    [rewrite (M2 eq_refl)|destruct (10000 <? Messages q2)]);
  (destruct (ConsumerUtilisation q1 <? 0.1)%float;
    [rewrite (U1 eq_refl)|destruct (ConsumerUtilisation q2 <? 0.1)%float]);
  (destruct (ConsumerUtilisation q1 <? 0.01)%float;
    [rewrite (U2 eq_refl)|destruct (ConsumerUtilisation q2 <? 0.01)%float]);
  (destruct (1.0 <? GetRedeliverRate q1)%float;
    [rewrite (R1 eq_refl)|destruct (1.0 <? GetRedeliverRate q2)%float]);
  (destruct (5.0 <? GetRedeliverRate q1)%float;
    [rewrite (R2 eq_refl)|destruct (5.0 <? GetRedeliverRate q2)%float]);
  vm_compute; reflexivity.
Qed.

(** C8: the health score is 100 minus the cumulative deductions (20 and 30
    on messages, 25 and 40 on utilisation, 15 and 25 on redeliver-rate),
    clamped below at 0: it lies between 0 and 100, and it does not increase
    when messages or redeliver-rate increase or utilisation decreases. *)
Theorem C8_health_score :
  (forall q, healthScore q = float64 (Z.max 0 (100 - deductions q)))
  /\ (forall q, (0 <=? healthScore q)%float = true
                /\ (healthScore q <? 0)%float = false
                /\ (healthScore q <=? 100)%float = true)
  /\ (forall q1 q2,
        Messages q1 <= Messages q2 ->
        float_le (ConsumerUtilisation q2) (ConsumerUtilisation q1) ->
        float_le (GetRedeliverRate q1) (GetRedeliverRate q2) ->
        (healthScore q2 <=? healthScore q1)%float = true).
Proof.
  split; [exact healthScore_formula|].
  split; [|exact healthScore_mono].
  intros q. destruct (healthScore_range q) as [H0 H100].
  repeat split; auto.
  unfold healthScore.
  destruct (1000 <? Messages q), (10000 <? Messages q),
    (ConsumerUtilisation q <? 0.1)%float, (ConsumerUtilisation q <? 0.01)%float,
    (1.0 <? GetRedeliverRate q)%float, (5.0 <? GetRedeliverRate q)%float;
    vm_compute; reflexivity.
Qed.

Lemma C8_health_score_witness :
  healthScore q_unhealthy = 0%float
  /\ healthScore q_healthy = 100%float
  /\ (healthScore q_unhealthy <=? healthScore q_healthy)%float = true.
Proof.
  destruct C8_health_score as (F & _ & M).
  split; [rewrite (F q_unhealthy); vm_compute; reflexivity|].
  split; [rewrite (F q_healthy); vm_compute; reflexivity|].
  apply (M q_healthy q_unhealthy).
  - vm_compute. discriminate.
  - right. vm_compute. reflexivity.
  - right. vm_compute. reflexivity.
Defined.

(** ** The circuit breaker *)

Lemma wrap64_small (z : Z) : - 2 ^ 63 <= z < 2 ^ 63 -> wrap64 z = z.
Proof. intros H. unfold wrap64. rewrite Z.mod_small; lia. Qed.

Lemma NewClient_inv url user pass timeout :
  breakerInv (NewClient url user pass timeout).
Proof. unfold breakerInv, NewClient; simpl. repeat split; try lia; discriminate. Qed.

Lemma isCircuitOpen_cases now c :
  isCircuitOpen now c = (true, c, [])
  \/ exists c1, isCircuitOpen now c = (false, c1, []).
Proof.
  unfold isCircuitOpen.
  destruct (negb (circuitOpen c)); [right; eauto|].
  destruct (resetTimeout c <? Since now (lastFailureTime c));
    [right; eauto|left; reflexivity].
Qed.

Lemma isCircuitOpen_closed now c :
  circuitOpen c = false -> isCircuitOpen now c = (false, c, []).
Proof. intros H. unfold isCircuitOpen. rewrite H. reflexivity. Qed.

Lemma isCircuitOpen_cooling now c :
  circuitOpen c = true -> Since now (lastFailureTime c) <= resetTimeout c ->
  isCircuitOpen now c = (true, c, []).
Proof.
  intros H L. unfold isCircuitOpen. rewrite H. simpl.
  destruct (resetTimeout c <? Since now (lastFailureTime c)) eqn:E; [lia|reflexivity].
Qed.

Lemma isCircuitOpen_elapsed now c :
  circuitOpen c = true -> resetTimeout c < Since now (lastFailureTime c) ->
  isCircuitOpen now c = (false, setBreaker c 0 (lastFailureTime c) false, []).
Proof.
  intros H L. unfold isCircuitOpen. rewrite H. simpl.
  destruct (resetTimeout c <? Since now (lastFailureTime c)) eqn:E; [reflexivity|lia].
Qed.

Lemma isCircuitOpen_inv now c open c' log :
  breakerInv c -> isCircuitOpen now c = (open, c', log) ->
  breakerInv c' /\ (open = false -> circuitOpen c' = false).
Proof.
  unfold breakerInv, isCircuitOpen. intros (Hm & Hr & Hc & Ho).
  destruct (circuitOpen c) eqn:E; simpl;
    [destruct (resetTimeout c <? Since now (lastFailureTime c)); simpl|];
    intros [= <- <- <-]; simpl; intuition (try lia; try congruence).
Qed.

Lemma recordFailure_inv now c :
  breakerInv c -> circuitOpen c = false ->
  breakerInv (snd (fst (recordFailure now c))).
Proof.
  intros (Hm & Hr & Hc & Ho) E. unfold recordFailure, breakerInv; simpl.
  assert (failureCount c <> 5) by (intros F; apply Ho in F; congruence).
  rewrite wrap64_small by lia. rewrite Hm, E.
  repeat split; auto; try lia.
  - destruct (5 <=? failureCount c + 1) eqn:L; [lia|discriminate].
  - intros F. destruct (5 <=? failureCount c + 1) eqn:L; [reflexivity|lia].
Qed.

Lemma recordSuccess_inv c :
  breakerInv c -> breakerInv (snd (fst (recordSuccess c))).
Proof.
  intros (Hm & Hr & Hc & Ho). unfold recordSuccess, breakerInv; simpl.
  repeat split; auto; try lia; discriminate.
Qed.

Ltac norm_record :=
  unfold recordFailure, recordSuccess; cbv beta iota zeta; cbn [app].

Section ClientFacts.
Variable http_NewRequest : string -> string -> option string.
Variable json_Unmarshal_Queues : string -> string + list Queue.
Variable json_Unmarshal_object : string -> option (gmap string any).

Local Abbreviation GetQueues' :=
  (GetQueues http_NewRequest json_Unmarshal_Queues json_Unmarshal_object).
Local Abbreviation HealthCheck' := (HealthCheck http_NewRequest).
Local Abbreviation reachable' :=
  (reachable http_NewRequest json_Unmarshal_Queues json_Unmarshal_object).

(** The part of [GetQueues] that follows a response: whatever the body
    and the status are, the breaker hears of the outcome once. *)
Lemma GetQueues_after_response env c c1 resp log0 :
  isCircuitOpen (now_enter env) c = (false, c1, []) ->
  countRecords log0 = 0%nat ->
  Outcome env c
    (let '(b, c2, l2) :=
       (let '(body, err) :=
          limitRead (10 * 1024 * 1024) (Body resp) (BodyErr resp) in
        match err with
        | Some cause =>
            bind (recordFailure (now_exit env))
              (fun _ => ret ([], Some (ErrReadBody cause)))
        | None =>
            if negb (StatusCode resp =? StatusOK) then
              bind (recordFailure (now_exit env)) (fun _ =>
                match APIError_UnmarshalJSON json_Unmarshal_object body with
                | Some apiErr => ret ([], Some (ErrAPI apiErr))
                | None => ret ([], Some (ErrHTTPStatus (StatusCode resp) body))
                end)
            else
              match json_Unmarshal_Queues body with
              | inl cause =>
                  bind (recordFailure (now_exit env))
                    (fun _ => ret ([], Some (ErrUnmarshalQueues cause)))
              | inr queues =>
                  bind recordSuccess (fun _ => ret (queues, None))
              end
        end) c1 in (b, c2, log0 ++ l2)).
Proof.
  intros E H0.
  assert (C1 : forall l, countRecords (log0 ++ l) = countRecords l).
  { intros l. unfold countRecords in *. rewrite List.filter_app, length_app. lia. }
  unfold bind, ret.
  destruct (limitRead _ _ _) as [body [cause|]].
  { norm_record. eapply OutFailed;
      [exact E | rewrite C1; reflexivity | apply in_or_app; simpl; auto
      | discriminate]. }
  destruct (negb _).
  { destruct (APIError_UnmarshalJSON _ _); norm_record;
      (eapply OutFailed;
        [exact E | rewrite C1; reflexivity | apply in_or_app; simpl; auto
        | discriminate]). }
  destruct (json_Unmarshal_Queues body); norm_record.
  - eapply OutFailed;
      [exact E | rewrite C1; reflexivity | apply in_or_app; simpl; auto
      | discriminate].
  - eapply OutSucceeded;
      [exact E | rewrite C1; reflexivity | apply in_or_app; simpl; auto].
Qed.

(** Every call of [GetQueues] ends in one of the four ways of [Outcome]. *)
Lemma GetQueues_outcome env c : Outcome env c (GetQueues' env c).
Proof.
  unfold GetQueues', GetQueues.
  unfold bind at 1.
  destruct (isCircuitOpen_cases (now_enter env) c) as [E|[c1 E]]; rewrite E.
  { constructor. exact E. }
  unfold bind at 1, self. cbv beta iota zeta.
  destruct (http_NewRequest _ _) as [cause|].
  { unfold bind, ret. norm_record.
    eapply OutFailed; [exact E | reflexivity | simpl; auto | discriminate]. }
  unfold bind at 1.
  cbn [retryLoop]. change (0 <? 2) with true. cbv beta iota zeta.
  unfold bind at 1, httpDo.
  destruct (do_result env 0) as [resp|resp cause] eqn:D0.
  - unfold ret at 1. cbv beta iota zeta.
    generalize (GetQueues_after_response env c c1 resp
      ([] ++ [EvHTTPDo (baseURL c1 +:+ "/api/queues") 0] ++ []) E eq_refl).
    destruct (_ c1) as [[b c2] l2]. cbn [app]. auto.
  - change (0 <? 1) with true. cbv beta iota zeta.
    destruct (ctx_done env 0) as [e|] eqn:X.
    { unfold ret. cbv beta iota zeta. cbn [app].
      eapply OutAbandoned; [exact E | reflexivity | reflexivity]. }
    change (0 + 1) with 1. change (1 + 1) with 2.
    change (1 <? 2) with true. change (1 <? 1) with false. cbv beta iota zeta.
    unfold bind at 1, httpDo.
    destruct (do_result env 1) as [resp1|[resp1|] cause1] eqn:D1;
      unfold ret at 1; cbv beta iota zeta.
    + generalize (GetQueues_after_response env c c1 resp1
        ([] ++ [EvHTTPDo (baseURL c1 +:+ "/api/queues") 0]
            ++ [EvHTTPDo (baseURL c1 +:+ "/api/queues") 1] ++ []) E eq_refl).
      destruct (_ c1) as [[b c2] l2]. cbn [app]. auto.
    + generalize (GetQueues_after_response env c c1 resp1
        ([] ++ [EvHTTPDo (baseURL c1 +:+ "/api/queues") 0]
            ++ [EvHTTPDo (baseURL c1 +:+ "/api/queues") 1] ++ []) E eq_refl).
      destruct (_ c1) as [[b c2] l2]. cbn [app]. auto.
    + unfold bind, ret. norm_record.
      eapply OutFailed; [exact E | reflexivity | simpl; auto | discriminate].
Qed.

Lemma GetQueues_inv env c :
  breakerInv c -> breakerInv (snd (fst (GetQueues' env c))).
Proof.
  intros I. destruct (GetQueues_outcome env c) as [E|c1 e log E|c1 err log E|c1 qs log E];
    cbn [fst snd]; auto;
    destruct (isCircuitOpen_inv _ _ _ _ _ I E) as [I1 J1]; auto.
  - apply recordFailure_inv; auto.
  - apply recordSuccess_inv; auto.
Qed.

(** A call of [HealthCheck] is rejected, or is let through and recorded
    once. *)
Lemma HealthCheck_outcome env c :
  (isCircuitOpen (now_enter env) c = (true, c, [])
   /\ HealthCheck' env c = (Some ErrCircuitOpen, c, []))
  \/ (exists c1 err log,
        isCircuitOpen (now_enter env) c = (false, c1, [])
        /\ err <> Some ErrCircuitOpen
        /\ countRecords log = 1%nat
        /\ (HealthCheck' env c
              = (err, snd (fst (recordFailure (now_exit env) c1)), log)
            \/ HealthCheck' env c = (err, snd (fst (recordSuccess c1)), log))).
Proof.
  unfold HealthCheck', HealthCheck, bind, self, ret, httpDo.
  destruct (isCircuitOpen_cases (now_enter env) c) as [E|[c1 E]]; rewrite E;
    cbv beta iota zeta.
  { left. split; reflexivity. }
  right. exists c1.
  destruct (http_NewRequest _ _) as [cause|];
    [|destruct (do_result env 0) as [resp|resp cause];
      [destruct (negb _)|]];
    norm_record; do 2 eexists; (split; [reflexivity|]);
    (split; [|split; [|first [left; reflexivity | right; reflexivity]]]);
    first [discriminate | reflexivity].
Qed.

Lemma HealthCheck_inv env c :
  breakerInv c -> breakerInv (snd (fst (HealthCheck' env c))).
Proof.
  intros I.
  destruct (HealthCheck_outcome env c)
    as [[E ->]|(c1 & err & log & E & _ & _ & [-> | ->])];
    cbn [fst snd]; auto;
    destruct (isCircuitOpen_inv _ _ _ _ _ I E) as [I1 J1]; auto.
  - apply recordFailure_inv; auto.
  - apply recordSuccess_inv; auto.
Qed.

Lemma reachable_inv c : reachable' c -> breakerInv c.
Proof.
  induction 1.
  - apply NewClient_inv.
  - apply GetQueues_inv; assumption.
  - apply HealthCheck_inv; assumption.
Qed.

End ClientFacts.


Lemma allowRequest_closed now c :
  circuitOpen c = false -> allowRequest now c = (true, c).
Proof. intros H. unfold allowRequest. rewrite isCircuitOpen_closed; auto. Qed.

(** C5: with the defaults (threshold 5, cool-down 60s), a reachable breaker
    with fewer than 5 consecutive failures allows the request; the failure
    that brings the count to the threshold opens it, and requests are then
    refused, the state untouched, while no more than the cool-down has passed
    since that failure; once more than the cool-down has passed, the next
    [allowRequest] returns true, sets the count to 0 and the open flag to
    false, and every later [allowRequest] returns true and changes nothing. *)
Theorem C5_breaker_threshold_and_cooldown
    (http_NewRequest : string -> string -> option string)
    (json_Unmarshal_Queues : string -> string + list Queue)
    (json_Unmarshal_object : string -> option (gmap string any)) :
  let reachable :=
    reachable http_NewRequest json_Unmarshal_Queues json_Unmarshal_object in
  (forall c, reachable c -> maxFailures c = 5 /\ resetTimeout c = 60 * Second)
  /\ (forall c now, reachable c -> failureCount c < maxFailures c ->
        allowRequest now c = (true, c))
  /\ (forall c t, reachable c -> failureCount c + 1 = maxFailures c ->
        let c' := snd (fst (recordFailure t c)) in
        failureCount c' = maxFailures c' /\ circuitOpen c' = true
        /\ forall now, Since now t <= resetTimeout c' ->
             allowRequest now c' = (false, c'))
  /\ (forall c now, circuitOpen c = true ->
        resetTimeout c < Since now (lastFailureTime c) ->
        exists c', allowRequest now c = (true, c')
          /\ failureCount c' = 0 /\ circuitOpen c' = false
          /\ forall now', allowRequest now' c' = (true, c')).
Proof.
  intros R. split; [|split; [|split]].
  - intros c H. apply reachable_inv in H. destruct H as (Hm & Hr & _). auto.
  - intros c now H L. apply reachable_inv in H. destruct H as (Hm & Hr & Hc & Ho).
    apply allowRequest_closed.
    destruct (circuitOpen c) eqn:E; [|reflexivity].
    assert (failureCount c = 5) by (apply Ho; reflexivity). lia.
  - intros c t H L. apply reachable_inv in H. destruct H as (Hm & Hr & Hc & Ho).
    cbn zeta. unfold recordFailure. cbn [fst snd setBreaker failureCount
      maxFailures circuitOpen resetTimeout lastFailureTime].
    rewrite wrap64_small by lia.
    assert (Le : (maxFailures c <=? failureCount c + 1) = true) by lia.
    rewrite Le. repeat split; [lia|].
    intros now Hn. unfold allowRequest.
    rewrite isCircuitOpen_cooling; [reflexivity|reflexivity|exact Hn].
  - intros c now Ho Hn.
    exists (setBreaker c 0 (lastFailureTime c) false).
    unfold allowRequest. rewrite isCircuitOpen_elapsed by assumption.
    split; [reflexivity|]. split; [reflexivity|]. split; [reflexivity|].
    intros now'. rewrite isCircuitOpen_closed; reflexivity.
Qed.

Lemma C5_breaker_threshold_and_cooldown_witness :
  let c4 := setBreaker client0 4 (at_s 60) false in
  let c5 := snd (fst (recordFailure (at_s 75) c4)) in
  allowRequest (at_s 70) client0 = (true, client0)
  /\ circuitOpen c5 = true
  /\ allowRequest (at_s 135) c5 = (false, c5)
  /\ exists c', allowRequest (at_s 136) c5 = (true, c')
       /\ failureCount c' = 0 /\ circuitOpen c' = false.
Proof.
  pose (poll := fun c t =>
    snd (fst (GetQueues newRequest_ok decode_two decode_none (env_refused t) c))).
  assert (R0 : reachable newRequest_ok decode_two decode_none client0)
    by apply reach_NewClient.
  assert (R4 : reachable newRequest_ok decode_two decode_none
                 (setBreaker client0 4 (at_s 60) false)).
  { change (setBreaker client0 4 (at_s 60) false)
      with (poll (poll (poll (poll client0 (at_s 15)) (at_s 30)) (at_s 45)) (at_s 60)).
    unfold poll. repeat apply reach_GetQueues. exact R0. }
  destruct (C5_breaker_threshold_and_cooldown newRequest_ok decode_two decode_none)
    as (_ & Ha & Hb & Hc).
  cbv zeta.
  destruct (Hb _ (at_s 75) R4 eq_refl) as (_ & Ho & Hcool).
  split; [apply (Ha client0 (at_s 70) R0); vm_compute; reflexivity|].
  split; [exact Ho|].
  split; [apply Hcool; vm_compute; discriminate|].
  destruct (Hc _ (at_s 136) Ho) as (c' & E & F & O & _);
    [vm_compute; reflexivity|].
  exists c'. auto.
Defined.

(** C7: a call of [GetQueues] or [HealthCheck] made while the breaker is
    open and no more than the cool-down has passed fails with the circuit-open
    error, logs no HTTP attempt and no record, and leaves the client as it
    was; no other path of either method returns that error. *)
Theorem C7_open_circuit_rejection
    (http_NewRequest : string -> string -> option string)
    (json_Unmarshal_Queues : string -> string + list Queue)
    (json_Unmarshal_object : string -> option (gmap string any)) :
  let GetQueues :=
    GetQueues http_NewRequest json_Unmarshal_Queues json_Unmarshal_object in
  let HealthCheck := HealthCheck http_NewRequest in
  (forall env c,
      circuitOpen c = true ->
      Since (now_enter env) (lastFailureTime c) <= resetTimeout c ->
      GetQueues env c = ([], Some ErrCircuitOpen, c, [])
      /\ HealthCheck env c = (Some ErrCircuitOpen, c, []))
  /\ (forall env c queues c' log,
        GetQueues env c = (queues, Some ErrCircuitOpen, c', log) ->
        queues = [] /\ c' = c /\ log = [])
  /\ (forall env c c' log,
        HealthCheck env c = (Some ErrCircuitOpen, c', log) ->
        c' = c /\ log = []).
Proof.
  intros G H. split; [|split].
  - intros env c Ho Hc.
    pose proof (isCircuitOpen_cooling (now_enter env) c Ho Hc) as E.
    split.
    + unfold G, GetQueues, bind. rewrite E. reflexivity.
    + unfold H, HealthCheck, bind. rewrite E. reflexivity.
  - intros env c queues c' log E.
    pose proof (GetQueues_outcome http_NewRequest json_Unmarshal_Queues
                  json_Unmarshal_object env c) as O.
    fold G in O. rewrite E in O. inversion O; subst; auto; congruence.
  - intros env c c' log E.
    destruct (HealthCheck_outcome http_NewRequest env c)
      as [[_ E']|(c1 & err & l & _ & Ne & _ & [E'|E'])];
      fold H in E'; rewrite E in E'; inversion E'; subst; auto; congruence.
Qed.

Lemma C7_open_circuit_rejection_witness :
  let c5 := setBreaker client0 5 (at_s 75) true in
  GetQueues newRequest_ok decode_two decode_none (env_ok (at_s 90)) c5
    = ([], Some ErrCircuitOpen, c5, [])
  /\ HealthCheck newRequest_ok (env_ok (at_s 90)) c5
    = (Some ErrCircuitOpen, c5, []).
Proof.
  cbv zeta.
  apply (proj1 (C7_open_circuit_rejection newRequest_ok decode_two decode_none)).
  - reflexivity.
  - vm_compute. discriminate.
Defined.

(** C4 fails on the code: when the first attempt fails and the context is
    done during the backoff, [GetQueues] returns the context's error after one
    HTTP attempt, without a call of [recordFailure] or [recordSuccess], and
    the breaker is as it was. (Every other way a call that was let through
    ends is recorded exactly once: [GetQueues_outcome].) *)
Theorem C4_deadline_in_backoff_not_recorded
    (json_Unmarshal_Queues : string -> string + list Queue)
    (json_Unmarshal_object : string -> option (gmap string any)) (t : Time) :
  let '(queues, err, c', log) :=
    GetQueues newRequest_ok json_Unmarshal_Queues json_Unmarshal_object
      (env_deadline t) client_slow in
  queues = [] /\ err = Some (ErrContext DeadlineExceeded)
  /\ countHTTPDo log = 1%nat /\ countRecords log = 0%nat
  /\ c' = client_slow /\ failureCount c' = 0.
Proof. vm_compute. repeat split; reflexivity. Qed.


(** ** The metric families *)

Lemma upd_eq v s m : upd v s m v = s.
Proof. unfold upd. by rewrite decide_True. Qed.

Lemma upd_ne v v' s m : v' <> v -> upd v s m v' = m v'.
Proof. intros. unfold upd. by rewrite decide_False. Qed.

Lemma GaugeSet_spec v l x m :
  length l = length (labelNames v) ->
  exists m', GaugeSet v l x m = Some m'
    /\ forall v', m' v' = upd v (<[l:=x]> (m v)) m v'.
Proof. intros H. unfold GaugeSet. rewrite H, Nat.eqb_refl. eauto. Qed.

Lemma ResetQueueMetrics_queue m v :
  In v GetQueueCollectors -> ResetQueueMetrics m v = ∅.
Proof.
  intros H. unfold GetQueueCollectors in H. simpl in H.
  repeat (destruct H as [<-|H]; [reflexivity|]). destruct H.
Qed.

Lemma ResetQueueMetrics_other m v :
  ~ In v GetQueueCollectors -> ResetQueueMetrics m v = m v.
Proof.
  intros H. destruct v; try reflexivity; exfalso; apply H; simpl; tauto.
Qed.

(** One [GaugeSet] of a chain: name the store it leaves. *)
Ltac gauge_step :=
  match goal with
  | |- context [GaugeSet ?v ?l ?x ?m] =>
      let m' := fresh "m" in
      let H := fresh "Hm" in
      destruct (GaugeSet_spec v l x m eq_refl) as (m' & -> & H);
      cbn [mbind option_bind]
  end.

(** Read a family of the last store back through the chain. *)
Ltac read_back :=
  repeat match goal with
  | H : forall v', ?m' v' = upd _ _ _ v' |- context [?m' ?v] =>
      rewrite (H v); first [rewrite upd_eq | rewrite upd_ne by discriminate]
  end.

Lemma updateQueueMetrics_spec q m :
  exists m', updateQueueMetrics q m = Some m'
    /\ forall v, m' v = writeAll (samples v q) (m v).
Proof.
  unfold updateQueueMetrics, calculateHealthMetrics, setStates.
  repeat gauge_step.
  eexists; split; [reflexivity|].
  intros v. unfold samples, labelsOf, writeAll, flag.
  destruct v; read_back; reflexivity.
Qed.

Lemma writeAll_app l1 l2 s : writeAll (l1 ++ l2) s = writeAll l2 (writeAll l1 s).
Proof. unfold writeAll. apply fold_left_app. Qed.

Lemma updateAllQueues_spec qs m :
  exists m', updateAllQueues qs m = Some m'
    /\ forall v, m' v = writeAll (flat_map (samples v) qs) (m v).
Proof.
  revert m. induction qs as [|q qs IH]; intros m.
  - exists m. split; reflexivity.
  - destruct (updateQueueMetrics_spec q m) as (m1 & E1 & H1).
    destruct (IH m1) as (m2 & E2 & H2).
    exists m2. cbn [updateAllQueues]. rewrite E1. cbn [mbind option_bind].
    split; [exact E2|].
    intros v. rewrite H2, H1. cbn [flat_map]. rewrite writeAll_app. reflexivity.
Qed.

Lemma dom_writeAll (l : list (list string * float)) (s : Series) :
  dom (writeAll l s) = dom s ∪ list_to_set l.*1.
Proof.
  revert s. induction l as [|[k x] l IH]; intros s; cbn.
  - set_solver.
  - unfold writeAll in *. cbn. rewrite IH, dom_insert_L. set_solver.
Qed.

Lemma writeAll_lookup_notin (l : list (list string * float)) (s : Series) k :
  k ∉ l.*1 -> writeAll l s !! k = s !! k.
Proof.
  revert s. induction l as [|[k' x] l IH]; intros s H; [reflexivity|].
  cbn in H. apply not_elem_of_cons in H as [Hne H].
  unfold writeAll in *. cbn. rewrite IH by assumption.
  apply lookup_insert_ne. congruence.
Qed.

Lemma writeAll_lookup (l : list (list string * float)) (s : Series) k x :
  NoDup l.*1 -> (k, x) ∈ l -> writeAll l s !! k = Some x.
Proof.
  revert s. induction l as [|[k' x'] l IH]; intros s N H.
  - by apply elem_of_nil in H.
  - cbn in N. apply NoDup_cons in N as [Hk N].
    apply elem_of_cons in H as [[= <- <-]|H].
    + unfold writeAll. cbn. fold (writeAll l (<[k:=x]> s)).
      rewrite writeAll_lookup_notin by assumption. apply lookup_insert_eq.
    + unfold writeAll. cbn. fold (writeAll l (<[k':=x']> s)). by apply IH.
Qed.

Lemma size_writeAll (l : list (list string * float)) :
  NoDup l.*1 -> size (writeAll l (∅ : Series)) = length l.
Proof.
  intros N. rewrite <- size_dom, dom_writeAll, dom_empty_L, (left_id_L ∅ (∪)).
  rewrite size_list_to_set by assumption. apply length_fmap.
Qed.

(** Every series of a record starts with the record's two labels. *)
Lemma samples_prefix v q k :
  k ∈ (samples v q).*1 -> take 2 k = labelsOf q.
Proof.
  destruct v; cbn; intros H;
    repeat (apply elem_of_cons in H as [->|H]; [reflexivity|]);
    by apply elem_of_nil in H.
Qed.

Lemma samples_NoDup v q : NoDup (samples v q).*1.
Proof.
  destruct v; cbn; repeat (apply NoDup_cons; split);
    try apply NoDup_nil_2; rewrite ?elem_of_cons, ?elem_of_nil;
    intuition discriminate.
Qed.

Lemma samples_length v q : length (samples v q) = seriesPerQueue v.
Proof. destruct v; reflexivity. Qed.

Lemma flat_samples_prefix v qs k :
  k ∈ (flat_map (samples v) qs).*1 -> exists q, q ∈ qs /\ take 2 k = labelsOf q.
Proof.
  induction qs as [|q qs IH]; cbn; intros H.
  - by apply elem_of_nil in H.
  - rewrite fmap_app in H. apply elem_of_app in H as [H|H].
    + exists q. split; [left|]. eapply samples_prefix; eauto.
    + destruct (IH H) as (q' & Hq & E). exists q'. split; [by right|auto].
Qed.

Lemma flat_samples_NoDup v qs :
  NoDup (labelsOf <$> qs) -> NoDup (flat_map (samples v) qs).*1.
Proof.
  induction qs as [|q qs IH]; cbn; intros N; [apply NoDup_nil_2|].
  apply NoDup_cons in N as [Hq N].
  rewrite fmap_app. apply NoDup_app. split; [apply samples_NoDup|].
  split; [|auto].
  intros k H1 H2. apply samples_prefix in H1.
  apply flat_samples_prefix in H2 as (q' & Hq' & E).
  apply Hq. rewrite <- H1, E. apply list_elem_of_fmap. eauto.
Qed.

Lemma flat_samples_length v qs :
  length (flat_map (samples v) qs) = (length qs * seriesPerQueue v)%nat.
Proof.
  induction qs as [|q qs IH]; cbn; [reflexivity|].
  rewrite length_app, IH, samples_length. lia.
Qed.

Lemma flat_samples_elem v qs q kx :
  q ∈ qs -> kx ∈ samples v q -> kx ∈ flat_map (samples v) qs.
Proof.
  intros Hq Hk. apply list_elem_of_In. apply in_flat_map.
  exists q. split; by apply list_elem_of_In.
Qed.


(** ** The scrape *)

Lemma CounterInc_spec v l m :
  length l = length (labelNames v) ->
  exists m', CounterInc v l m = Some m'
    /\ forall v', m' v' =
         upd v (<[l := (default 0%float (m v !! l) + 1)%float]> (m v)) m v'.
Proof.
  intros H. unfold CounterInc, CounterAdd. rewrite H, Nat.eqb_refl.
  change (1 <? 0)%float with false. eauto.
Qed.

Lemma isStale_eq env c :
  negb (cacheValid c)
  || (wrap64 (scrapeInterval c * 2) <? Since (now_check env) (cacheTimestamp c))
  = isStale env c.
Proof. reflexivity. Qed.

Lemma not_queue_collector v :
  v = ScrapeDurationSeconds \/ v = ScrapeErrorsTotal
  \/ v = CircuitBreakerState \/ v = CircuitBreakerFailures ->
  ~ In v GetQueueCollectors.
Proof.
  intros H I. simpl in I.
  repeat (destruct I as [<-|I];
          [repeat (destruct H as [H|H]; try discriminate H); discriminate H|]).
  destruct I.
Qed.

Lemma updateAllQueues_other qs m v :
  ~ In v GetQueueCollectors ->
  writeAll (flat_map (samples v) qs) (ResetQueueMetrics m v) = m v.
Proof.
  intros H. rewrite ResetQueueMetrics_other by assumption.
  replace (flat_map (samples v) qs) with (@nil (list string * float));
    [reflexivity|].
  induction qs as [|q qs IH]; [reflexivity|]. cbn [flat_map]. rewrite <- IH.
  destruct v; try reflexivity; exfalso; apply H; simpl; tauto.
Qed.

(** A scrape of a fresh cache. *)
Lemma Collect_fresh env c :
  isStale env c = false ->
  exists m',
    Collect env c = Some (setMetrics c m', collectMetrics m')
    /\ (forall v, In v GetQueueCollectors ->
          m' v = writeAll (flat_map (samples v) (cachedQueues c)) ∅)
    /\ m' ScrapeErrorsTotal = metrics c ScrapeErrorsTotal
    /\ m' CircuitBreakerState = metrics c CircuitBreakerState
    /\ m' CircuitBreakerFailures = metrics c CircuitBreakerFailures.
Proof.
  intros F. unfold Collect, get. rewrite isStale_eq, F.
  destruct (updateAllQueues_spec (cachedQueues c) (ResetQueueMetrics (metrics c)))
    as (m1 & -> & H1).
  cbn [mbind option_bind]. gauge_step.
  eexists. split; [reflexivity|].
  split; [|repeat split].
  - intros v Hv. rewrite Hm, upd_ne.
    + rewrite H1, ResetQueueMetrics_queue by assumption. reflexivity.
    + intros ->. revert Hv. apply not_queue_collector. tauto.
  - rewrite Hm, upd_ne, H1 by discriminate.
    apply updateAllQueues_other, not_queue_collector. tauto.
  - rewrite Hm, upd_ne, H1 by discriminate.
    apply updateAllQueues_other, not_queue_collector. tauto.
  - rewrite Hm, upd_ne, H1 by discriminate.
    apply updateAllQueues_other, not_queue_collector. tauto.
Qed.

(** A scrape of a stale cache. *)
Lemma Collect_stale env c :
  isStale env c = true ->
  exists m',
    Collect env c = Some (setMetrics c m', collectMetrics m')
    /\ (forall v, In v GetQueueCollectors -> m' v = ∅)
    /\ m' ScrapeErrorsTotal =
         match collectionError c with
         | Some _ =>
             <[ ["api_error"%string] :=
                  (default 0%float
                     (metrics c ScrapeErrorsTotal !! ["api_error"%string]) + 1)%float ]>
               (metrics c ScrapeErrorsTotal)
         | None => metrics c ScrapeErrorsTotal
         end
    /\ m' CircuitBreakerState = metrics c CircuitBreakerState
    /\ m' CircuitBreakerFailures = metrics c CircuitBreakerFailures.
Proof.
  intros F. unfold Collect, get. rewrite isStale_eq, F.
  destruct (collectionError c) as [e|].
  - destruct (CounterInc_spec ScrapeErrorsTotal ["api_error"%string]
                (ResetQueueMetrics (metrics c)) eq_refl) as (m1 & -> & H1).
    cbn [mbind option_bind]. gauge_step.
    eexists. split; [reflexivity|].
    split; [|repeat split].
    + intros v Hv. rewrite Hm, upd_ne, H1, upd_ne.
      * apply ResetQueueMetrics_queue; assumption.
      * intros ->. revert Hv. apply not_queue_collector. tauto.
      * intros ->. revert Hv. apply not_queue_collector. tauto.
    + rewrite Hm, upd_ne, H1, upd_eq by discriminate. reflexivity.
    + rewrite Hm, upd_ne, H1, upd_ne by discriminate. reflexivity.
    + rewrite Hm, upd_ne, H1, upd_ne by discriminate. reflexivity.
  - cbn [mbind option_bind]. gauge_step.
    eexists. split; [reflexivity|].
    split; [|repeat split].
    + intros v Hv. rewrite Hm, upd_ne.
      * apply ResetQueueMetrics_queue; assumption.
      * intros ->. revert Hv. apply not_queue_collector. tauto.
    + rewrite Hm, upd_ne by discriminate. reflexivity.
    + rewrite Hm, upd_ne by discriminate. reflexivity.
    + rewrite Hm, upd_ne by discriminate. reflexivity.
Qed.

(** A scrape always returns, and writes to the metrics only. *)
Lemma Collect_total env c :
  exists m', Collect env c = Some (setMetrics c m', collectMetrics m').
Proof.
  destruct (isStale env c) eqn:F.
  - destruct (Collect_stale env c F) as (m' & E & _). eauto.
  - destruct (Collect_fresh env c F) as (m' & E & _). eauto.
Qed.

Lemma serve_cache http_NewRequest reqs c :
  exists c', serve http_NewRequest reqs c = Some c'
    /\ get c' = get c /\ cacheTimestamp c' = cacheTimestamp c.
Proof.
  revert c. induction reqs as [|[env|env] reqs IH]; intros c.
  - exists c. auto.
  - destruct (Collect_total env c) as (m' & E).
    destruct (IH (setMetrics c m')) as (c' & E' & G & T).
    exists c'. cbn [serve]. rewrite E. cbn [mbind option_bind fst].
    auto.
  - cbn [serve]. unfold healthHandler.
    destruct (HealthCheck http_NewRequest env (client c)) as [[err cl] log].
    cbn [fst]. destruct (IH (setClient c cl)) as (c' & E' & G & T).
    exists c'. auto.
Qed.

Lemma collectMetrics_In v m : In (v, m v) (collectMetrics m).
Proof.
  unfold collectMetrics. apply (in_map (fun collector => (collector, m collector))).
  destruct v; simpl; tauto.
Qed.


(** C1, as amended: a scrape taken while the cached snapshot is stale
    (invalid, or captured more than twice the poll interval ago) does not
    fail; it clears every queue-scoped family and renders none of the cached
    records; it increments the scrape error counter by one exactly when a
    collection error is stored, and leaves it otherwise; the cache is left as
    it was. *)
Theorem C1_stale_scrape (env : ScrapeEnv) (c : Collector) :
  isStale env c = true ->
  exists c' out,
    Collect env c = Some (c', out)
    /\ out = collectMetrics (metrics c')
    /\ (forall v, In v GetQueueCollectors ->
          metrics c' v = ∅ /\ In (v, ∅) out)
    /\ metrics c' ScrapeErrorsTotal =
         match collectionError c with
         | Some _ =>
             <[ ["api_error"%string] :=
                  (default 0%float
                     (metrics c ScrapeErrorsTotal !! ["api_error"%string]) + 1)%float ]>
               (metrics c ScrapeErrorsTotal)
         | None => metrics c ScrapeErrorsTotal
         end
    /\ get c' = get c /\ cacheTimestamp c' = cacheTimestamp c.
Proof.
  intros F. destruct (Collect_stale env c F) as (m' & E & Hq & He & _).
  exists (setMetrics c m'), (collectMetrics m').
  split; [exact E|]. split; [reflexivity|].
  split; [|split; [exact He|split; reflexivity]].
  intros v Hv. split; [apply Hq; assumption|].
  cbn [metrics setMetrics]. rewrite <- (Hq v Hv). apply collectMetrics_In.
Qed.

Lemma C1_stale_scrape_witness :
  isStale (scrape_at (at_s 20)) collector_stale = true
  /\ exists c' out,
       Collect (scrape_at (at_s 20)) collector_stale = Some (c', out)
       /\ metrics c' QueueHealthScore = ∅
       /\ metrics c' ScrapeErrorsTotal !! ["api_error"%string] = Some 1%float
       /\ cachedQueues c' = [q_healthy; q_unhealthy].
Proof.
  split; [reflexivity|].
  destruct (C1_stale_scrape (scrape_at (at_s 20)) collector_stale eq_refl)
    as (c' & out & E & _ & Hq & He & Hg & _).
  exists c', out. split; [exact E|].
  split; [apply Hq; simpl; tauto|].
  split; [rewrite He; vm_compute; reflexivity|].
  injection Hg as -> _ _. reflexivity.
Defined.

(** C1 as stated fails: after a successful and then a failed poll the cache
    still holds the two records, yet the scrape hands the registry no
    queue-scoped series at all (the fifteen queue families are empty); and
    when the snapshot of a successful poll is stale by age alone, the scrape
    renders nothing either and the error counter is not incremented. *)
Lemma C1_counterexample :
  match collector_failed with
  | Some c =>
      cachedQueues c = [q_healthy; q_unhealthy]
      /\ cacheValid c = false
      /\ isStale (scrape_at (at_s 20)) c = true
      /\ match Collect (scrape_at (at_s 20)) c with
         | Some (c', out) =>
             metrics c' QueueMessagesReady !! labelsOf q_healthy = None
             /\ metrics c' QueueHealthScore !! labelsOf q_unhealthy = None
             /\ seriesCounts out
                = [0; 0; 0; 0; 0; 0; 0; 0; 0; 0; 0; 0; 0; 0; 0; 1; 1; 1; 1]%nat
         | None => False
         end
  | None => False
  end
  /\ match collector_polled with
     | Some c =>
         cachedQueues c = [q_healthy; q_unhealthy]
         /\ cacheValid c = true
         /\ isStale (scrape_at (at_s 31)) c = true
         /\ match Collect (scrape_at (at_s 31)) c with
            | Some (c', out) =>
                metrics c' ScrapeErrorsTotal !! ["api_error"%string] = None
                /\ seriesCounts out
                   = [0; 0; 0; 0; 0; 0; 0; 0; 0; 0; 0; 0; 0; 0; 0; 1; 0; 1; 1]%nat
            | None => False
            end
     | None => False
     end.
Proof. vm_compute. repeat split; reflexivity. Qed.

(** C6: a poll whose fetch fails sets the validity flag to false and stores
    the error; the cached records and their capture timestamp are kept, and
    every read of the cache after it, however many scrapes and health checks
    are served in between, returns the prior records with validity false. *)
Theorem C6_failed_publish_keeps_records
    (http_NewRequest : string -> string -> option string)
    (json_Unmarshal_Queues : string -> string + list Queue)
    (json_Unmarshal_object : string -> option (gmap string any))
    (env : PollEnv) (c : Collector) (err : error) :
  snd (fst (fst (GetQueues http_NewRequest json_Unmarshal_Queues
                   json_Unmarshal_object (call env) (client c)))) = Some err ->
  exists c' events,
    collectQueueData http_NewRequest json_Unmarshal_Queues json_Unmarshal_object
      env c = Some (c', events)
    /\ cacheValid c' = false /\ collectionError c' = Some err
    /\ cachedQueues c' = cachedQueues c
    /\ cacheTimestamp c' = cacheTimestamp c
    /\ get c' = (cachedQueues c, false, Some err)
    /\ forall reqs, exists c'',
         serve http_NewRequest reqs c' = Some c''
         /\ get c'' = (cachedQueues c, false, Some err)
         /\ cacheTimestamp c'' = cacheTimestamp c.
Proof.
  intros H. unfold collectQueueData.
  destruct (GetQueues _ _ _ (call env) (client c)) as [[[queues e] cl] events].
  cbn [fst snd] in H. subst e.
  eexists _, events. split; [reflexivity|].
  repeat (split; [reflexivity|]).
  intros reqs.
  destruct (serve_cache http_NewRequest reqs (publishFailure (setClient c cl) err))
    as (c'' & E & G & T).
  exists c''. split; [exact E|]. split; [rewrite G; reflexivity|rewrite T; reflexivity].
Qed.

Lemma C6_failed_publish_keeps_records_witness :
  exists c' events,
    collectQueueData newRequest_ok decode_two decode_none
      (poll_env (env_refused (at_s 15))) collector_fresh = Some (c', events)
    /\ get c'
       = ([q_healthy; q_unhealthy], false,
          Some (ErrRequestFailed 2 "connection refused"))
    /\ cacheTimestamp c' = at_s 0.
Proof.
  destruct (C6_failed_publish_keeps_records newRequest_ok decode_two decode_none
              (poll_env (env_refused (at_s 15))) collector_fresh
              (ErrRequestFailed 2 "connection refused") eq_refl)
    as (c' & events & E & _ & _ & _ & T & G & _).
  exists c', events. split; [exact E|]. split; [exact G|exact T].
Defined.

(** C9: a scrape of a valid, fresh snapshot of N records with distinct
    (name, vhost) pairs leaves in every queue-scoped family exactly the
    samples of those records, written into an emptied family: one set per
    record (N, 2N or 3N series by family), each sample of each record
    present, and no series that does not carry the labels of a record of the
    snapshot. *)
Theorem C9_fresh_scrape_renders_snapshot (env : ScrapeEnv) (c : Collector) :
  isStale env c = false ->
  NoDup (labelsOf <$> cachedQueues c) ->
  exists c' out,
    Collect env c = Some (c', out)
    /\ out = collectMetrics (metrics c')
    /\ forall v, In v GetQueueCollectors ->
         In (v, metrics c' v) out
         /\ metrics c' v = writeAll (flat_map (samples v) (cachedQueues c)) ∅
         /\ size (metrics c' v) = (length (cachedQueues c) * seriesPerQueue v)%nat
         /\ (forall q k x, q ∈ cachedQueues c -> (k, x) ∈ samples v q ->
               metrics c' v !! k = Some x)
         /\ (forall k, k ∈ dom (metrics c' v) ->
               exists q, q ∈ cachedQueues c /\ take 2 k = labelsOf q).
Proof.
  intros F N. destruct (Collect_fresh env c F) as (m' & E & Hq & _).
  exists (setMetrics c m'), (collectMetrics m').
  split; [exact E|]. split; [reflexivity|].
  intros v Hv. cbn [metrics setMetrics].
  pose proof (flat_samples_NoDup v _ N) as Nk.
  split; [apply collectMetrics_In|].
  split; [apply Hq; assumption|].
  rewrite (Hq v Hv).
  split; [rewrite size_writeAll by assumption; apply flat_samples_length|].
  split.
  - intros q k x Hin Hk. apply writeAll_lookup; [assumption|].
    eapply flat_samples_elem; eauto.
  - intros k Hk. rewrite dom_writeAll, dom_empty_L, (left_id_L ∅ (∪)) in Hk.
    apply elem_of_list_to_set in Hk. apply flat_samples_prefix in Hk. exact Hk.
Qed.

Lemma C9_fresh_scrape_renders_snapshot_witness :
  isStale (scrape_at (at_s 5)) collector_fresh = false
  /\ exists c' out,
       Collect (scrape_at (at_s 5)) collector_fresh = Some (c', out)
       /\ size (metrics c' QueueMessagesReady) = 2%nat
       /\ size (metrics c' QueueState) = 6%nat
       /\ metrics c' QueueHealthScore !! labelsOf q_unhealthy = Some 0%float.
Proof.
  split; [reflexivity|].
  assert (N : NoDup (labelsOf <$> cachedQueues collector_fresh)).
  { apply (bool_decide_unpack _). vm_compute. exact I. }
  destruct (C9_fresh_scrape_renders_snapshot (scrape_at (at_s 5)) collector_fresh
              eq_refl N) as (c' & out & E & _ & H).
  exists c', out. split; [exact E|].
  split; [apply (H QueueMessagesReady); simpl; tauto|].
  split; [apply (H QueueState); simpl; tauto|].
  destruct (H QueueHealthScore) as (_ & _ & _ & L & _); [simpl; tauto|].
  apply (L q_unhealthy).
  - apply list_elem_of_In. simpl. tauto.
  - apply list_elem_of_In. left. vm_compute. reflexivity.
Defined.


(** ** Records without message statistics *)

(** C10: the four rate accessors and the total-redeliveries accessor return
    0 when the record has no message statistics, each rate accessor returns 0
    when its rate details are absent, and they return the stored values
    otherwise; a record without message statistics has a state, and is
    rendered, with rates 0 and its health score, without a failure. *)
Theorem C10_rate_accessors_total :
  (forall q, Stats q = None ->
     GetPublishRate q = 0%float /\ GetDeliverRate q = 0%float
     /\ GetAckRate q = 0%float /\ GetRedeliverRate q = 0%float
     /\ GetTotalRedeliveries q = 0)
  /\ (forall q ms, Stats q = Some ms ->
        (PublishDetails ms = None -> GetPublishRate q = 0%float)
        /\ (DeliverDetails ms = None -> GetDeliverRate q = 0%float)
        /\ (AckDetails ms = None -> GetAckRate q = 0%float)
        /\ (RedeliverDetails ms = None -> GetRedeliverRate q = 0%float)
        /\ (forall d, PublishDetails ms = Some d -> GetPublishRate q = Rate d)
        /\ (forall d, DeliverDetails ms = Some d -> GetDeliverRate q = Rate d)
        /\ (forall d, AckDetails ms = Some d -> GetAckRate q = Rate d)
        /\ (forall d, RedeliverDetails ms = Some d -> GetRedeliverRate q = Rate d)
        /\ GetTotalRedeliveries q = Redeliver ms)
  /\ (forall q, Stats q = None ->
        GetQueueState q
        = if (Consumers q =? 0) && (Messages q =? 0)
          then QueueStateIdle else QueueStateActive)
  /\ (forall q m, Stats q = None ->
        exists m', updateQueueMetrics q m = Some m'
          /\ m' QueueMessagePublishRate !! labelsOf q = Some 0%float
          /\ m' QueueMessageDeliverRate !! labelsOf q = Some 0%float
          /\ m' QueueMessageAckRate !! labelsOf q = Some 0%float
          /\ m' QueueMessageRedeliverRate !! labelsOf q = Some 0%float
          /\ m' QueueHealthScore !! labelsOf q = Some (healthScore q))
  /\ (forall q m, is_Some (updateQueueMetrics q m)).
Proof.
  split; [|split; [|split; [|split]]].
  - intros q H. unfold GetPublishRate, GetDeliverRate, GetAckRate,
      GetRedeliverRate, GetTotalRedeliveries. rewrite H. auto.
  - intros q ms H. unfold GetPublishRate, GetDeliverRate, GetAckRate,
      GetRedeliverRate, GetTotalRedeliveries. rewrite H.
    repeat split; intros; repeat match goal with E : _ = _ |- _ => rewrite E end;
      reflexivity.
  - intros q H. unfold GetQueueState. rewrite H.
    destruct (Consumers q =? 0), (Messages q =? 0); cbn;
      destruct ((0 <? Consumers q) && (0 <? Messages q)); reflexivity.
  - intros q m H.
    destruct (updateQueueMetrics_spec q m) as (m' & E & S).
    exists m'. split; [exact E|].
    rewrite !S. unfold samples, writeAll. cbn [fold_left fst snd].
    unfold GetPublishRate, GetDeliverRate, GetAckRate, GetRedeliverRate.
    rewrite H, !lookup_insert_eq. auto.
  - intros q m. destruct (updateQueueMetrics_spec q m) as (m' & E & _).
    rewrite E. eauto.
Qed.

Lemma C10_rate_accessors_total_witness :
  GetPublishRate q_backlog = 0%float
  /\ GetRedeliverRate q_backlog = 0%float
  /\ GetTotalRedeliveries q_backlog = 0
  /\ GetDeliverRate q_undelivered = 0%float
  /\ GetQueueState q_backlog = QueueStateActive
  /\ exists m', updateQueueMetrics q_backlog NewMetrics = Some m'
       /\ m' QueueMessagePublishRate !! labelsOf q_backlog = Some 0%float.
Proof.
  destruct C10_rate_accessors_total as (Hn & Hs & Hq & Hr & _).
  destruct (Hn q_backlog eq_refl) as (P & _ & _ & R & T).
  destruct (Hs q_undelivered _ eq_refl) as (_ & D & _).
  destruct (Hr q_backlog NewMetrics eq_refl) as (m' & E & L & _).
  split; [exact P|]. split; [exact R|]. split; [exact T|].
  split; [apply D; reflexivity|].
  split; [rewrite (Hq q_backlog eq_refl); reflexivity|].
  exists m'. split; [exact E|exact L].
Defined.

(** ** The circuit-breaker gauge *)

(** The only writer of the gauge runs after a fetch that succeeded, when the
    breaker has just been closed: a poll leaves the gauge as it was or sets
    it to 0. *)
Lemma collectQueueData_gauge
    (http_NewRequest : string -> string -> option string)
    (json_Unmarshal_Queues : string -> string + list Queue)
    (json_Unmarshal_object : string -> option (gmap string any))
    (env : PollEnv) (c : Collector) :
  exists c' events,
    collectQueueData http_NewRequest json_Unmarshal_Queues json_Unmarshal_object
      env c = Some (c', events)
    /\ (metrics c' CircuitBreakerState = metrics c CircuitBreakerState
        \/ metrics c' CircuitBreakerState
           = <[ ["rabbitmq_api"%string] := 0%float ]> (metrics c CircuitBreakerState)).
Proof.
  unfold collectQueueData.
  pose proof (GetQueues_outcome http_NewRequest json_Unmarshal_Queues
                json_Unmarshal_object (call env) (client c)) as O.
  destruct (GetQueues _ _ _ (call env) (client c)) as [[[queues e] cl] events].
  inversion O; subst.
  1-3: eexists _, _; (split; [reflexivity|left; reflexivity]).
  unfold updateCircuitBreakerMetrics, GetCircuitBreakerStatus, recordSuccess.
  cbn [fst snd client setClient publishSuccess metrics setBreaker circuitOpen
       failureCount lastFailureTime].
  gauge_step. unfold CounterAdd. cbn [length labelNames Nat.eqb].
  change (float64 0 <? 0)%float with false. cbn [mbind option_bind].
  eexists _, _. split; [reflexivity|right].
  cbn [metrics setMetrics]. rewrite upd_ne, Hm, upd_eq by discriminate.
  reflexivity.
Qed.

(** C2 fails on the code: after five failed polls in a row the breaker is
    open (count 5), and the circuit-breaker state gauge was never set; when a
    successful poll came first, the gauge reads 0 (closed). The scrape that
    follows exports the gauge unchanged, while the error counter rises. *)
Theorem C2_gauge_not_open_while_breaker_open :
  match collector_open with
  | Some c =>
      GetCircuitBreakerStatus (client c) = (true, 5, at_s 75)
      /\ metrics c CircuitBreakerState !! ["rabbitmq_api"%string] = None
  | None => False
  end
  /\ match collector_open_after_success with
     | Some c =>
         GetCircuitBreakerStatus (client c) = (true, 5, at_s 75)
         /\ metrics c CircuitBreakerState !! ["rabbitmq_api"%string] = Some 0%float
         /\ match Collect (scrape_at (at_s 80)) c with
            | Some (c', out) =>
                metrics c' CircuitBreakerState !! ["rabbitmq_api"%string]
                  = Some 0%float
                /\ metrics c' ScrapeErrorsTotal !! ["api_error"%string]
                  = Some 1%float
            | None => False
            end
     | None => False
     end.
Proof. vm_compute. repeat split; reflexivity. Qed.


(** * Further properties of the code *)

(** ** Dead-letter detection *)

Lemma substring_all (s : string) : String.substring 0 (String.length s) s = s.
Proof. induction s as [|a s IH]; simpl; [reflexivity|]. f_equal. exact IH. Qed.

Lemma substring_skip (p s : string) :
  String.substring (String.length p) (String.length s) (p +:+ s) = s.
Proof. induction p as [|a p IH]; simpl; [apply substring_all|exact IH]. Qed.

Lemma length_append (p s : string) :
  String.length (p +:+ s) = (String.length p + String.length s)%nat.
Proof. induction p as [|a p IH]; simpl; [reflexivity|]. f_equal. exact IH. Qed.

Lemma substring_split (s : string) (k m : nat) :
  (k + m)%nat = String.length s ->
  s = String.substring 0 k s +:+ String.substring k m s.
Proof.
  revert k m. induction s as [|a s IH]; intros k m H; simpl in H.
  - destruct k, m; try discriminate. reflexivity.
  - destruct k as [|k].
    + simpl in H. subst m. simpl. rewrite substring_all. reflexivity.
    + simpl. change (String a (substring 0 k s) +:+ substring k m s)
        with (String a (substring 0 k s +:+ substring k m s)).
      f_equal. apply IH. lia.
Qed.

Lemma hasSuffix_spec (name suffix : string) :
  hasSuffix name suffix = true <-> exists p, name = p +:+ suffix.
Proof.
  unfold hasSuffix. rewrite andb_true_iff, Nat.leb_le, String.eqb_eq. split.
  - intros [L E].
    exists (String.substring 0 (String.length name - String.length suffix) name).
    pose proof (substring_split name (String.length name - String.length suffix)
                  (String.length suffix)) as S.
    rewrite E in S. apply S. lia.
  - intros [p ->]. rewrite length_append. split; [lia|].
    replace (String.length p + String.length suffix - String.length suffix)%nat
      with (String.length p) by lia.
    apply substring_skip.
Qed.

(** X1: a queue is a dead-letter queue exactly when its arguments have the
    key x-dead-letter-exchange (whatever the value), or its name ends with
    .dlq, .dead or .deadletter. *)
Theorem X1_dead_letter_detection (q : Queue) :
  IsDeadLetterQueue q = true <->
  is_Some (Arguments q !! "x-dead-letter-exchange"%string)
  \/ exists p, Name q = p +:+ ".dlq" \/ Name q = p +:+ ".dead"
               \/ Name q = p +:+ ".deadletter".
Proof.
  unfold IsDeadLetterQueue.
  destruct (Arguments q !! "x-dead-letter-exchange"%string) as [a|] eqn:E.
  { split; [eauto|reflexivity]. }
  pose proof (hasSuffix_spec (Name q) ".dlq") as H1.
  pose proof (hasSuffix_spec (Name q) ".dead") as H2.
  pose proof (hasSuffix_spec (Name q) ".deadletter") as H3.
  destruct (hasSuffix (Name q) ".dlq").
  { split; [|reflexivity]. intros _. right.
    destruct (proj1 H1 eq_refl) as [p Hp]. eauto. }
  destruct (hasSuffix (Name q) ".dead").
  { split; [|reflexivity]. intros _. right.
    destruct (proj1 H2 eq_refl) as [p Hp]. eauto. }
  destruct (hasSuffix (Name q) ".deadletter").
  { split; [|reflexivity]. intros _. right.
    destruct (proj1 H3 eq_refl) as [p Hp]. eauto. }
  split; [discriminate|].
  intros [[a Ha]|[p [Hp|[Hp|Hp]]]]; [discriminate| | |].
  - apply H1. eauto.
  - apply H2. eauto.
  - apply H3. eauto.
Qed.

Lemma X1_dead_letter_detection_witness :
  IsDeadLetterQueue q_dlq = true /\ IsDeadLetterQueue q_healthy = false.
Proof.
  split.
  - apply (proj2 (X1_dead_letter_detection q_dlq)).
    right. exists "orders"%string. left. reflexivity.
  - reflexivity.
Defined.

(** ** The paths of the client *)

Lemma isCircuitOpen_baseURL now c open c1 log :
  isCircuitOpen now c = (open, c1, log) -> baseURL c1 = baseURL c.
Proof.
  unfold isCircuitOpen.
  destruct (negb (circuitOpen c)); [intros [= _ <- _]; reflexivity|].
  destruct (resetTimeout c <? Since now (lastFailureTime c));
    intros [= _ <- _]; reflexivity.
Qed.

Lemma last_nonempty (a : Time) l d d' :
  List.last (a :: l) d = List.last (a :: l) d'.
Proof.
  revert a. induction l as [|b l IH]; intros a; [reflexivity|].
  change (List.last (b :: l) d = List.last (b :: l) d'). apply IH.
Qed.

Section ServiceFacts.

Variable http_NewRequest : string -> string -> option string.
Variable json_Unmarshal_Queues : string -> string + list Queue.
Variable json_Unmarshal_object : string -> option (gmap string any).

Local Abbreviation GetQueues' :=
  (GetQueues http_NewRequest json_Unmarshal_Queues json_Unmarshal_object).
Local Abbreviation HealthCheck' := (HealthCheck http_NewRequest).
Local Abbreviation reachable' :=
  (reachable http_NewRequest json_Unmarshal_Queues json_Unmarshal_object).
Local Abbreviation collectQueueData' :=
  (collectQueueData http_NewRequest json_Unmarshal_Queues json_Unmarshal_object).
Local Abbreviation running' :=
  (running http_NewRequest json_Unmarshal_Queues json_Unmarshal_object).

(** The decisions of [GetQueues] after a response. *)
Ltac after_response :=
  let body := fresh "body" in
  let LR := fresh "LR" in
  destruct (limitRead _ _ _) as [body [?cause|]] eqn:LR;
  [|destruct (StatusCode _ =? StatusOK) eqn:?ST; cbn [negb];
    [destruct (json_Unmarshal_Queues _) as [?cause|?qs] eqn:?DQ
    |destruct (APIError_UnmarshalJSON _ _) as [?apiErr|] eqn:?DA]];
  norm_record.

(** Every path of [GetQueues], one goal each. *)
Ltac getqueues_paths env c :=
  unfold GetQueues, bind, self, ret, httpDo; cbn [retryLoop];
  unfold bind, ret, httpDo;
  change (0 <? 2) with true; change (0 <? 1) with true;
  change (0 + 1) with 1; change (1 + 1) with 2;
  change (1 <? 2) with true; change (1 <? 1) with false;
  let E := fresh "E" in
  let c1 := fresh "c1" in
  destruct (isCircuitOpen_cases (now_enter env) c) as [E|[c1 E]]; rewrite E;
  cbv beta iota zeta;
  [|destruct (http_NewRequest _ _) as [?cause|] eqn:?EN;
    [norm_record
    |destruct (do_result env 0) as [?resp|?r0 ?cause] eqn:?D0;
     [after_response
     |destruct (ctx_done env 0) as [?e|] eqn:?X;
      [norm_record
      |destruct (do_result env 1) as [?resp|[?resp|] ?cause] eqn:?D1;
       [after_response|after_response|norm_record]]]]].

(** Every path of [HealthCheck], one goal each. *)
Ltac health_paths env c :=
  unfold HealthCheck, bind, self, ret, httpDo;
  let E := fresh "E" in
  let c1 := fresh "c1" in
  destruct (isCircuitOpen_cases (now_enter env) c) as [E|[c1 E]]; rewrite E;
  cbv beta iota zeta;
  [|destruct (http_NewRequest _ _) as [?cause|] eqn:?EN;
    [|destruct (do_result env 0) as [?resp|?r0 ?cause] eqn:?D0;
      [destruct (StatusCode _ =? StatusOK) eqn:?ST; cbn [negb]|]];
    norm_record].

(** X2: [GetQueues] returns without error exactly when the breaker lets the
    call through, the request can be built, the first attempt (or the retry
    after a failed first attempt) gives a response with status 200 whose
    body, read up to the 10 MiB limit without a read error, decodes to the
    returned queues; the call then records one success after its attempts. *)
Theorem X2_fetch_success env c queues c' log :
  GetQueues' env c = (queues, None, c', log) <->
  exists c1 resp body attempts,
    isCircuitOpen (now_enter env) c = (false, c1, [])
    /\ http_NewRequest "GET" (baseURL c1 +:+ "/api/queues") = None
    /\ Responded env (baseURL c1 +:+ "/api/queues") resp attempts
    /\ limitRead (10 * 1024 * 1024) (Body resp) (BodyErr resp) = (body, None)
    /\ StatusCode resp = 200
    /\ json_Unmarshal_Queues body = inr queues
    /\ c' = snd (fst (recordSuccess c1))
    /\ log = attempts ++ [EvRecordSuccess].
Proof.
  split.
  - getqueues_paths env c; intros H; inversion H; subst; clear H.
    all: exists c1, resp, body; eexists; split; [reflexivity|];
      split; [assumption|];
      (split; [first [eapply RespFirst; eassumption
                     |eapply RespRetry; eauto]|]);
      (split; [assumption|]); (split; [apply Z.eqb_eq; assumption|]);
      (split; [assumption|]); split; reflexivity.
  - intros (c1 & resp & body & attempts & E & EN & R & LR & ST & DQ & -> & ->).
    unfold GetQueues, bind, self, ret, httpDo; cbn [retryLoop];
    unfold bind, ret, httpDo. rewrite E. cbv beta iota zeta. rewrite EN.
    change (0 <? 2) with true; change (0 <? 1) with true;
    change (0 + 1) with 1; change (1 + 1) with 2;
    change (1 <? 2) with true; change (1 <? 1) with false.
    apply Z.eqb_eq in ST.
    inversion R as [resp' D0|r cause resp' D0 X [D1|[cause1 D1]]]; subst;
      rewrite D0; cbv beta iota zeta; rewrite ?X, ?D1; cbv beta iota zeta;
      rewrite LR; unfold StatusOK; rewrite ST; cbn [negb]; rewrite DQ;
      norm_record; reflexivity.
Qed.

Ltac shape_with n :=
  exists n; eexists; (split; [reflexivity|]); (split; [lia|]);
  (split; [first [left; reflexivity | right; left; reflexivity
                 | right; right; reflexivity]|]);
  (split; [first [discriminate | intros _; eauto]|]);
  first [reflexivity | congruence].

(** X3: a call of [GetQueues] makes at most two HTTP attempts, numbered 0
    and 1 and sent to baseURL/api/queues, followed by at most one record
    call; a second attempt is made only after the first one failed and the
    backoff was not cut short; whenever an error is returned, no queues are. *)
Theorem X3_fetch_log_shape env c queues err c' log :
  GetQueues http_NewRequest json_Unmarshal_Queues json_Unmarshal_object env c
  = (queues, err, c', log) ->
  exists (n : nat) records,
    log = List.map (EvHTTPDo (baseURL c +:+ "/api/queues")) (firstn n [0; 1])
          ++ records
    /\ (n <= 2)%nat
    /\ (records = [] \/ records = [EvRecordFailure] \/ records = [EvRecordSuccess])
    /\ (n = 2%nat -> exists r cause,
          do_result env 0 = DoErr r cause /\ ctx_done env 0 = None)
    /\ (err <> None -> queues = []).
Proof.
  getqueues_paths env c; intros H; inversion H; subst; clear H;
    try rewrite (isCircuitOpen_baseURL _ _ _ _ _ E).
  all: first [shape_with 0%nat | shape_with 1%nat | shape_with 2%nat].
Qed.

(** X4: a first response whose status is not 200 (other 2xx included) is a
    failure: one attempt, one recorded failure, no queues, and the error is
    the broker's structured error when the body decodes as a JSON object,
    the status with the body otherwise. *)
Theorem X4_fetch_status_error env c c1 resp body :
  isCircuitOpen (now_enter env) c = (false, c1, []) ->
  http_NewRequest "GET" (baseURL c1 +:+ "/api/queues") = None ->
  do_result env 0 = DoOk resp ->
  limitRead (10 * 1024 * 1024) (Body resp) (BodyErr resp) = (body, None) ->
  StatusCode resp <> 200 ->
  GetQueues' env c =
    ([],
     Some match APIError_UnmarshalJSON json_Unmarshal_object body with
          | Some apiErr => ErrAPI apiErr
          | None => ErrHTTPStatus (StatusCode resp) body
          end,
     snd (fst (recordFailure (now_exit env) c1)),
     [EvHTTPDo (baseURL c1 +:+ "/api/queues") 0; EvRecordFailure]).
Proof.
  intros E EN D0 LR ST. apply Z.eqb_neq in ST.
  unfold GetQueues, bind, self, ret, httpDo; cbn [retryLoop];
  unfold bind, ret, httpDo. rewrite E. cbv beta iota zeta. rewrite EN.
  change (0 <? 2) with true. cbv beta iota zeta. rewrite D0.
  cbv beta iota zeta. rewrite LR. unfold StatusOK. rewrite ST. cbn [negb].
  destruct (APIError_UnmarshalJSON _ _); norm_record; reflexivity.
Qed.

(** X5: the /health endpoint answers 200 with body OK exactly when the
    breaker lets the check through, the request can be built and the single
    attempt on baseURL/api/overview gets status 200, and the breaker is then
    closed with count 0; in every other case it answers 503. It never makes
    more than one HTTP attempt, and none while the breaker rejects. *)
Theorem X5_health_endpoint env c :
  let '(status, body, c', log) := healthEndpoint http_NewRequest env c in
  (status = 200 /\ body = "OK"%string
   \/ status = 503
      /\ body = "Health check failed" +:+ String (ascii_of_nat 10) EmptyString)
  /\ (status = 200 <->
      exists c1 resp,
        isCircuitOpen (now_enter env) c = (false, c1, [])
        /\ http_NewRequest "GET" (baseURL c +:+ "/api/overview") = None
        /\ do_result env 0 = DoOk resp /\ StatusCode resp = 200)
  /\ (status = 200 -> failureCount c' = 0 /\ circuitOpen c' = false)
  /\ (countHTTPDo log <= 1)%nat
  /\ (isCircuitOpen (now_enter env) c = (true, c, []) ->
      status = 503 /\ c' = c /\ log = []).
Proof.
  unfold healthEndpoint. unfold bind at 1.
  health_paths env c; unfold ret; cbv beta iota zeta; cbn [app];
    pose proof (isCircuitOpen_baseURL _ _ _ _ _ E) as B;
    try rewrite B in EN; try rewrite B;
    unfold StatusOK, StatusServiceUnavailable.
  - split; [right; split; reflexivity|]. split; [|split; [discriminate|]].
    + split; [discriminate|]. intros (c1 & resp & E' & _). congruence.
    + split; [cbn; lia|]. auto.
  - split; [right; split; reflexivity|]. split; [|split; [discriminate|]].
    + split; [discriminate|]. intros (c1' & resp & _ & N & _).
      pose proof (eq_trans (eq_sym EN) N) as F. discriminate F.
    + split; [cbn; lia|]. intros [=].
  - apply Z.eqb_eq in ST. unfold StatusOK in ST.
    split; [left; split; reflexivity|]. split; [|split].
    + split; [|reflexivity]. intros _. exists c1, resp. auto.
    + intros _. split; reflexivity.
    + split; [cbn; lia|]. intros [=].
  - apply Z.eqb_neq in ST. unfold StatusOK in ST.
    split; [right; split; reflexivity|]. split; [|split; [discriminate|]].
    + split; [discriminate|]. intros (c1' & resp' & _ & _ & D & S). congruence.
    + split; [cbn; lia|]. intros [=].
  - split; [right; split; reflexivity|]. split; [|split; [discriminate|]].
    + split; [discriminate|]. intros (c1' & resp' & _ & _ & D & S). congruence.
    + split; [cbn; lia|]. intros [=].
Qed.

(** X6: the breaker is shared by the poller and the /health endpoint: when
    a health check fails on a client one failure short of the threshold, the
    breaker opens, and a fetch made no more than 60s later is rejected with
    the circuit-open error, without an HTTP attempt or a record. *)
Theorem X6_failed_health_check_trips_the_poller env env' c :
  reachable' c ->
  failureCount c + 1 = maxFailures c ->
  fst (fst (HealthCheck' env c)) <> None ->
  Since (now_enter env') (now_exit env) <= 60 * Second ->
  let c' := snd (fst (HealthCheck' env c)) in
  circuitOpen c' = true
  /\ GetQueues' env' c' = ([], Some ErrCircuitOpen, c', []).
Proof.
  intros R F Herr Hs.
  destruct (reachable_inv _ _ _ _ R) as (Hm & Hr & Hc & Ho).
  assert (Hclosed : circuitOpen c = false).
  { destruct (circuitOpen c); [|reflexivity].
    assert (failureCount c = 5) by (apply Ho; reflexivity). lia. }
  pose proof (isCircuitOpen_closed (now_enter env) c Hclosed) as E0.
  revert Herr. cbv zeta.
  health_paths env c; cbn [fst snd];
    try (rewrite E0 in E; discriminate E);
    rewrite E0 in E; injection E as <-; intros Herr;
    try (exfalso; apply Herr; reflexivity).
  all: cbn [setBreaker circuitOpen]; rewrite wrap64_small by lia.
  all: assert (L : (maxFailures c <=? failureCount c + 1) = true) by lia;
    rewrite L; split; [reflexivity|].
  all: unfold GetQueues, bind; rewrite isCircuitOpen_cooling;
    [reflexivity|reflexivity|cbn; rewrite Hr; exact Hs].
Qed.

(** X7: after n failures recorded in a row (the count staying below 2^63)
    the count has grown by n, the last-failure time is that of the last one,
    the configuration is untouched, and the breaker is open exactly if it
    was open before or n >= 1 and the count has reached the threshold. *)
Theorem X7_consecutive_failures times c :
  0 <= failureCount c ->
  failureCount c + Z.of_nat (length times) < 2 ^ 63 ->
  let c' := recordFailures times c in
  failureCount c' = failureCount c + Z.of_nat (length times)
  /\ circuitOpen c'
     = circuitOpen c
       || (negb (Nat.eqb (length times) 0)
           && (maxFailures c <=? failureCount c + Z.of_nat (length times)))
  /\ lastFailureTime c' = List.last times (lastFailureTime c)
  /\ configOf c' = configOf c.
Proof.
  revert c. induction times as [|t times IH]; intros c H0 Hb.
  - cbn. repeat split; try lia. by rewrite orb_false_r.
  - cbn [recordFailures]. cbn [length] in Hb.
    set (c1 := snd (fst (recordFailure t c))).
    assert (F1 : failureCount c1 = failureCount c + 1).
    { unfold c1, recordFailure. cbn. apply wrap64_small. lia. }
    assert (M1 : maxFailures c1 = maxFailures c) by reflexivity.
    assert (O1 : circuitOpen c1
                 = if maxFailures c <=? failureCount c + 1 then true
                   else circuitOpen c).
    { unfold c1, recordFailure. cbn. rewrite wrap64_small by lia. reflexivity. }
    assert (T1 : lastFailureTime c1 = t) by reflexivity.
    destruct (IH c1) as (Fc & Oc & Lc & Cc); [lia|lia|].
    cbv zeta. rewrite Fc, Oc, Lc, Cc, F1, M1, O1, T1. cbn [length].
    set (n := length times) in *.
    split; [lia|]. split; [|split; [|reflexivity]].
    + destruct (Nat.eqb_spec n 0) as [Hn|Hn]; cbn [negb andb Nat.eqb];
        repeat match goal with
        | |- context [?a <=? ?b] => destruct (Z.leb_spec a b)
        end; destruct (circuitOpen c); try reflexivity; try lia.
    + destruct times as [|t' times]; [reflexivity|].
      change (List.last (t' :: times) t
              = List.last (t' :: times) (lastFailureTime c)).
      apply last_nonempty.
Qed.

(** X8: for every client built by [NewClient] and used through [GetQueues]
    and [HealthCheck], the failure count stays between 0 and 5, the breaker
    is open exactly when the count is 5, and the configuration is the one
    [NewClient] set. *)
Theorem X8_reachable_breaker_invariant c :
  reachable' c ->
  0 <= failureCount c <= 5
  /\ (circuitOpen c = true <-> failureCount c = 5)
  /\ exists url user pass timeout,
       configOf c = configOf (NewClient url user pass timeout).
Proof.
  intros R. destruct (reachable_inv _ _ _ _ R) as (_ & _ & Hc & Ho).
  split; [exact Hc|]. split; [exact Ho|].
  induction R as [url user pass timeout|env c R IH|env c R IH].
  - eauto.
  - destruct IH as (url & user & pass & timeout & IH);
      [apply (reachable_inv _ _ _ _ R)..|].
    exists url, user, pass, timeout. rewrite <- IH.
    destruct (GetQueues_outcome http_NewRequest json_Unmarshal_Queues
                json_Unmarshal_object env c)
      as [E|c1 e log E|c1 e log E|c1 qs log E];
      cbn [fst snd]; try reflexivity;
      revert E; unfold isCircuitOpen;
      repeat match goal with |- context [if ?b then _ else _] => destruct b end;
      intros [= <-]; reflexivity.
  - destruct IH as (url & user & pass & timeout & IH);
      [apply (reachable_inv _ _ _ _ R)..|].
    exists url, user, pass, timeout. rewrite <- IH.
    destruct (HealthCheck_outcome http_NewRequest env c)
      as [[E ->]|(c1 & err & log & E & _ & _ & [-> | ->])];
      cbn [fst snd]; try reflexivity;
      revert E; unfold isCircuitOpen;
      repeat match goal with |- context [if ?b then _ else _] => destruct b end;
      intros [= <-]; reflexivity.
Qed.

(** ** The poller, the scrapes and the health endpoint together *)

(** What a poll leaves, by the result of its fetch. *)
Lemma collectQueueData_spec env c :
  let '(queues, err, cl, events) := GetQueues' (call env) (client c) in
  match err with
  | Some e =>
      collectQueueData' env c = Some (publishFailure (setClient c cl) e, events)
  | None =>
      exists m',
        collectQueueData' env c
        = Some (setMetrics (publishSuccess (setClient c cl) queues
                              (now_stamp env) (now_last env)) m', events)
        /\ failureCount cl = 0 /\ circuitOpen cl = false
        /\ m' CircuitBreakerState = <[apiKey := 0%float]> (metrics c CircuitBreakerState)
        /\ m' CircuitBreakerFailures
           = <[apiKey := (default 0%float (metrics c CircuitBreakerFailures !! apiKey)
                          + 0)%float]> (metrics c CircuitBreakerFailures)
        /\ forall v, v <> CircuitBreakerState -> v <> CircuitBreakerFailures ->
             m' v = metrics c v
  end.
Proof.
  unfold collectQueueData.
  pose proof (GetQueues_outcome http_NewRequest json_Unmarshal_Queues
                json_Unmarshal_object (call env) (client c)) as O.
  destruct (GetQueues _ _ _ (call env) (client c)) as [[[queues e] cl] events].
  inversion O; subst; try reflexivity.
  unfold updateCircuitBreakerMetrics, GetCircuitBreakerStatus, recordSuccess.
  cbn [fst snd client setClient publishSuccess metrics setBreaker circuitOpen
       failureCount lastFailureTime].
  gauge_step. unfold CounterAdd. cbn [length labelNames Nat.eqb].
  change (float64 0 <? 0)%float with false. cbn [mbind option_bind].
  eexists. split; [reflexivity|].
  split; [reflexivity|]. split; [reflexivity|].
  split; [rewrite upd_ne, Hm, upd_eq by discriminate; reflexivity|].
  split; [rewrite upd_eq, Hm, upd_ne by discriminate; reflexivity|].
  intros v N1 N2. rewrite upd_ne, Hm, upd_ne by auto. reflexivity.
Qed.

(** X9: a poll whose fetch succeeds, followed by a scrape taken no later
    than twice the interval after it, exports the fetched records: the cache
    holds them as valid, and each queue family has one set of samples per
    record (the records having distinct name and vhost), each readable under
    its labels, and is handed to the registry. *)
Theorem X9_poll_then_scrape env senv c queues cl events :
  GetQueues' (call env) (client c) = (queues, None, cl, events) ->
  NoDup (labelsOf <$> queues) ->
  Since (now_check senv) (now_stamp env) <= wrap64 (scrapeInterval c * 2) ->
  exists c1 c2 out,
    collectQueueData' env c = Some (c1, events)
    /\ get c1 = (queues, true, None)
    /\ cacheTimestamp c1 = now_stamp env
    /\ Collect senv c1 = Some (c2, out)
    /\ forall v, In v GetQueueCollectors ->
         In (v, metrics c2 v) out
         /\ size (metrics c2 v) = (length queues * seriesPerQueue v)%nat
         /\ forall q k x, q ∈ queues -> (k, x) ∈ samples v q ->
              metrics c2 v !! k = Some x.
Proof.
  intros G N F. pose proof (collectQueueData_spec env c) as P.
  rewrite G in P. destruct P as (m' & E & _).
  set (c1 := setMetrics (publishSuccess (setClient c cl) queues
                           (now_stamp env) (now_last env)) m') in *.
  assert (Fr : isStale senv c1 = false).
  { unfold isStale, c1. cbn. apply Z.ltb_ge. exact F. }
  destruct (Collect_fresh senv c1 Fr) as (m2 & E2 & Hq & _).
  exists c1, (setMetrics c1 m2), (collectMetrics m2).
  split; [exact E|]. split; [reflexivity|]. split; [reflexivity|].
  split; [exact E2|].
  intros v Hv. cbn [metrics setMetrics].
  assert (Nk : NoDup (flat_map (samples v) queues).*1)
    by (apply flat_samples_NoDup; exact N).
  split; [apply collectMetrics_In|].
  rewrite (Hq v Hv). change (cachedQueues c1) with queues.
  split; [rewrite size_writeAll by assumption; apply flat_samples_length|].
  intros q k x Hin Hk. apply writeAll_lookup; [assumption|].
  eapply flat_samples_elem; eauto.
Qed.

Lemma running_inv c :
  running' c ->
  (cacheValid c = true -> collectionError c = None)
  /\ (collectionError c = None -> cacheValid c = false ->
      cachedQueues c = [] /\ cacheTimestamp c = zeroTime)
  /\ breakerInv (client c)
  /\ (metrics c CircuitBreakerState = ∅
      \/ metrics c CircuitBreakerState = {[ apiKey := 0%float ]})
  /\ (metrics c CircuitBreakerFailures = ∅
      \/ metrics c CircuitBreakerFailures = {[ apiKey := 0%float ]}).
Proof.
  induction 1 as [cl interval R|env c c' events R IH E|env c c' out R IH E|env c R IH].
  - cbn. split; [discriminate|]. split; [auto|].
    split; [eapply reachable_inv; eauto|]. split; left; reflexivity.
  - destruct IH as (I1 & I2 & I3 & I4 & I5).
    pose proof (collectQueueData_spec env c) as P.
    pose proof (GetQueues_inv http_NewRequest json_Unmarshal_Queues
                  json_Unmarshal_object (call env) (client c) I3) as Gi.
    destruct (GetQueues _ _ _ (call env) (client c)) as [[[queues e] cl] ev].
    cbn [fst snd] in Gi. destruct e as [e|].
    + rewrite E in P. injection P as -> _. cbn.
      split; [discriminate|]. split; [discriminate|]. auto.
    + destruct P as (m' & P & _ & _ & S1 & S2 & _).
      rewrite E in P. injection P as -> _.
      cbn [cacheValid collectionError cachedQueues cacheTimestamp client metrics
           setMetrics publishSuccess setClient].
      split; [auto|]. split; [discriminate|]. split; [exact Gi|].
      rewrite S1, S2. split; right.
      * destruct I4 as [-> | ->]; [apply insert_empty|apply insert_singleton_eq].
      * destruct I5 as [-> | ->].
        -- rewrite lookup_empty. cbn [default].
           change (0 + 0)%float with 0%float. apply insert_empty.
        -- rewrite lookup_singleton_eq. cbn [default].
           change (0 + 0)%float with 0%float. apply insert_singleton_eq.
  - destruct IH as (I1 & I2 & I3 & I4 & I5).
    destruct (isStale env c) eqn:F.
    + destruct (Collect_stale env c F) as (m' & E' & _ & _ & S1 & S2).
      rewrite E in E'. injection E' as -> _. cbn. rewrite S1, S2. auto.
    + destruct (Collect_fresh env c F) as (m' & E' & _ & _ & S1 & S2).
      rewrite E in E'. injection E' as -> _. cbn. rewrite S1, S2. auto.
  - destruct IH as (I1 & I2 & I3 & I4 & I5).
    unfold healthHandler.
    pose proof (HealthCheck_inv http_NewRequest env (client c) I3) as Hi.
    destruct (HealthCheck http_NewRequest env (client c)) as [[err cl] log].
    cbn in *. auto.
Qed.



Lemma collectQueueData_total env c :
  exists c' events,
    collectQueueData' env c = Some (c', events)
    /\ scrapeInterval c' = scrapeInterval c.
Proof.
  pose proof (collectQueueData_spec env c) as P.
  destruct (GetQueues _ _ _ (call env) (client c)) as [[[queues e] cl] ev].
  destruct e as [e|]; [eauto|].
  destruct P as (m' & -> & _). eauto.
Qed.

Lemma pollerLoop_total events c :
  exists c', pollerLoop http_NewRequest json_Unmarshal_Queues json_Unmarshal_object
               events c = Some c'
    /\ scrapeInterval c' = scrapeInterval c.
Proof.
  revert c. induction events as [|[env|] events IH]; intros c; cbn [pollerLoop]; eauto.
  destruct (collectQueueData_total env c) as (c1 & ev & -> & S1).
  cbn [mbind option_bind fst]. destruct (IH c1) as (c' & E & S'). rewrite E.
  exists c'. split; [reflexivity|congruence].
Qed.

Lemma pollerLoop_stop before after c :
  pollerLoop http_NewRequest json_Unmarshal_Queues json_Unmarshal_object
    (before ++ StopSignal :: after) c
  = pollerLoop http_NewRequest json_Unmarshal_Queues json_Unmarshal_object
      (before ++ [StopSignal]) c.
Proof.
  revert c. induction before as [|[env|] before IH]; intros c; cbn [app pollerLoop];
    [reflexivity| |reflexivity].
  destruct (collectQueueData _ _ _ env c) as [[c1 ev]|]; [|reflexivity].
  cbn [mbind option_bind fst]. apply IH.
Qed.

(** X12: the background poller panics at once when the collector's interval
    is not positive (the ticker cannot be built); with a positive interval
    it goes through any sequence of ticks without a panic, whatever the
    broker answers, and keeps the interval; it ends at the first stop signal:
    what is received after it has no effect. *)
Theorem X12_background_poller events c :
  let poller := backgroundCollection http_NewRequest json_Unmarshal_Queues
                  json_Unmarshal_object in
  (scrapeInterval c <= 0 -> poller events c = None)
  /\ (0 < scrapeInterval c ->
      exists c', poller events c = Some c'
                 /\ scrapeInterval c' = scrapeInterval c)
  /\ (forall before after,
        poller (before ++ StopSignal :: after) c = poller (before ++ [StopSignal]) c).
Proof.
  cbv zeta. unfold backgroundCollection. split; [|split].
  - intros H. destruct (scrapeInterval c <=? 0) eqn:L; [reflexivity|lia].
  - intros H. destruct (scrapeInterval c <=? 0) eqn:L; [lia|].
    apply pollerLoop_total.
  - intros before after. destruct (scrapeInterval c <=? 0); [reflexivity|].
    apply pollerLoop_stop.
Qed.

Lemma run_defaults_baseURL config user pass timeout :
  baseURL (NewClient (RabbitMQURL (run_defaults config)) user pass timeout)
  = RabbitMQURL (run_defaults config).
Proof.
  unfold run_defaults, NewClient. cbn.
  destruct (String.eqb_spec (RabbitMQURL config) "") as [U|U].
  - reflexivity.
  - destruct (String.eqb_spec (RabbitMQURL config) ""); [contradiction|reflexivity].
Qed.


(** A scrape of a collector that has not been polled yet. *)
Lemma Collect_before_first_poll cl interval senv :
  exists c' out,
    Collect senv (NewCollector cl NewMetrics interval) = Some (c', out)
    /\ (forall v, v <> ScrapeDurationSeconds -> metrics c' v = ∅)
    /\ get c' = ([], false, None).
Proof.
  destruct (Collect_stale senv (NewCollector cl NewMetrics interval) eq_refl)
    as (m' & E & Hq & S0 & S1 & S2).
  exists (setMetrics (NewCollector cl NewMetrics interval) m'), (collectMetrics m').
  split; [exact E|]. split; [|reflexivity].
  intros v Hv. cbn [metrics setMetrics].
  destruct v; try (apply Hq; simpl; tauto); try contradiction;
    [rewrite S0|rewrite S1|rewrite S2]; reflexivity.
Qed.

(** X14: [run] gets past its health check at boot exactly when the request
    to URL/api/overview can be built and its single attempt is answered with
    status 200. The collector it then creates is over a client with a closed
    breaker and count 0 and has the empty, invalid cache without an error:
    until the first poll every scrape exports no series but the scrape
    duration and counts no error. A negative configured interval is not
    replaced by the default and makes the poller panic. When the check
    fails, the error is never the circuit-open error. *)
Theorem X14_startup env config :
  let config' := run_defaults config in
  let answered :=
    http_NewRequest "GET" (RabbitMQURL config' +:+ "/api/overview") = None
    /\ exists resp, do_result env 0 = DoOk resp /\ StatusCode resp = 200 in
  match startup http_NewRequest env config with
  | inl e => e <> ErrCircuitOpen /\ ~ answered
  | inr c =>
      answered
      /\ running' c
      /\ failureCount (client c) = 0 /\ circuitOpen (client c) = false
      /\ baseURL (client c) = RabbitMQURL config'
      /\ get c = ([], false, None)
      /\ scrapeInterval c = ScrapeInterval config'
      /\ (forall senv, exists c' out,
            Collect senv c = Some (c', out)
            /\ (forall v, v <> ScrapeDurationSeconds -> metrics c' v = ∅)
            /\ get c' = ([], false, None))
      /\ (ScrapeInterval config < 0 ->
          forall events,
            backgroundCollection http_NewRequest json_Unmarshal_Queues
              json_Unmarshal_object events c = None)
  end.
Proof.
  cbv zeta. unfold startup.
  set (config' := run_defaults config).
  set (cl := NewClient (RabbitMQURL config') (RabbitMQUsername config')
               (RabbitMQPassword config') (RequestTimeout config')).
  assert (B : baseURL cl = RabbitMQURL config') by apply run_defaults_baseURL.
  assert (I : ScrapeInterval config < 0 -> ScrapeInterval config' <= 0).
  { intros H. unfold config', run_defaults. cbn.
    destruct (Z.eqb_spec (ScrapeInterval config) 0); lia. }
  pose proof (reach_HealthCheck http_NewRequest json_Unmarshal_Queues
                json_Unmarshal_object env cl (reach_NewClient _ _ _ _ _ _ _)) as R.
  pose proof (isCircuitOpen_closed (now_enter env) cl eq_refl) as E0.
  revert R. unfold HealthCheck, bind, self, ret, httpDo. rewrite E0.
  cbv beta iota zeta. rewrite B.
  destruct (http_NewRequest "GET" (RabbitMQURL config' +:+ "/api/overview"))
    as [cause|] eqn:EN.
  { norm_record. intros _. split; [discriminate|]. intros [F _]. discriminate F. }
  destruct (do_result env 0) as [resp|r0 cause] eqn:D0.
  2:{ norm_record. intros _. split; [discriminate|].
      intros [_ (resp & F & _)]. discriminate F. }
  destruct (StatusCode resp =? StatusOK) eqn:ST; cbn [negb]; norm_record.
  2:{ intros _. split; [discriminate|].
      apply Z.eqb_neq in ST. unfold StatusOK in ST.
      intros [_ (resp' & F & S)]. congruence. }
  apply Z.eqb_eq in ST. unfold StatusOK in ST. cbn [fst snd]. intros R.
  split; [split; [reflexivity|eauto]|].
  split; [apply running_start; exact R|].
  split; [reflexivity|]. split; [reflexivity|]. split; [exact B|].
  split; [reflexivity|]. split; [reflexivity|].
  split; [intros senv; apply Collect_before_first_poll|].
  intros H events. unfold backgroundCollection. cbn [scrapeInterval NewCollector].
  destruct (Z.leb_spec (ScrapeInterval config') 0) as [_|L]; [reflexivity|].
  specialize (I H). lia.
Qed.

End ServiceFacts.

(** ** Witnesses for the client, the poller and start-up *)

Lemma X2_fetch_success_witness :
  GetQueues newRequest_ok decode_two decode_none (env_ok (at_s 0)) client0
  = ([q_healthy; q_unhealthy], None, client0,
     [EvHTTPDo "http://localhost:15672/api/queues" 0; EvRecordSuccess]).
Proof.
  apply (proj2 (X2_fetch_success newRequest_ok decode_two decode_none
                  (env_ok (at_s 0)) client0 _ _ _)).
  exists client0, {| StatusCode := 200; Body := body_two; BodyErr := None |},
    body_two, [EvHTTPDo "http://localhost:15672/api/queues" 0].
  split; [reflexivity|]. split; [reflexivity|].
  split; [apply RespFirst; reflexivity|].
  split; [vm_compute; reflexivity|].
  repeat split; reflexivity.
Defined.

Lemma X3_fetch_log_shape_witness :
  exists (n : nat) records,
    [EvHTTPDo "http://localhost:15672/api/queues" 0;
     EvHTTPDo "http://localhost:15672/api/queues" 1; EvRecordFailure]
    = List.map (EvHTTPDo (baseURL client0 +:+ "/api/queues")) (firstn n [0; 1])
      ++ records
    /\ (n <= 2)%nat
    /\ (records = [] \/ records = [EvRecordFailure] \/ records = [EvRecordSuccess]).
Proof.
  destruct (X3_fetch_log_shape newRequest_ok decode_two decode_none
              (env_refused (at_s 15)) client0 []
              (Some (ErrRequestFailed 2 "connection refused"))
              (setBreaker client0 1 (at_s 15) false)
              [EvHTTPDo "http://localhost:15672/api/queues" 0;
               EvHTTPDo "http://localhost:15672/api/queues" 1; EvRecordFailure]
              eq_refl)
    as (n & records & E & L & R & _).
  exists n, records. split; [exact E|]. split; [exact L|exact R].
Defined.

Lemma X4_fetch_status_error_witness :
  GetQueues newRequest_ok decode_two decode_none (env_unavailable (at_s 15)) client0
  = ([], Some (ErrHTTPStatus 503 "upstream down"),
     setBreaker client0 1 (at_s 15) false,
     [EvHTTPDo "http://localhost:15672/api/queues" 0; EvRecordFailure]).
Proof.
  apply (X4_fetch_status_error newRequest_ok decode_two decode_none
           (env_unavailable (at_s 15)) client0 client0
           {| StatusCode := 503; Body := "upstream down"; BodyErr := None |}
           "upstream down").
  - reflexivity.
  - reflexivity.
  - reflexivity.
  - vm_compute. reflexivity.
  - cbn. lia.
Defined.

Lemma client_four_reachable :
  reachable newRequest_ok decode_two decode_none client_four.
Proof.
  pose proof (reach_NewClient newRequest_ok decode_two decode_none
                "http://localhost:15672" "guest" "guest" (10 * Second)) as R.
  apply (reach_GetQueues _ _ _ (env_refused (at_s 15))) in R.
  apply (reach_GetQueues _ _ _ (env_refused (at_s 30))) in R.
  apply (reach_GetQueues _ _ _ (env_refused (at_s 45))) in R.
  apply (reach_GetQueues _ _ _ (env_refused (at_s 60))) in R.
  exact R.
Qed.

Lemma X6_failed_health_check_trips_the_poller_witness :
  let c' := snd (fst (HealthCheck newRequest_ok (env_unavailable (at_s 70))
                        client_four)) in
  circuitOpen c' = true
  /\ GetQueues newRequest_ok decode_two decode_none (env_ok (at_s 75)) c'
     = ([], Some ErrCircuitOpen, c', []).
Proof.
  apply (X6_failed_health_check_trips_the_poller newRequest_ok decode_two
           decode_none (env_unavailable (at_s 70)) (env_ok (at_s 75)) client_four).
  - exact client_four_reachable.
  - reflexivity.
  - vm_compute. discriminate.
  - vm_compute. discriminate.
Defined.

Lemma X7_consecutive_failures_witness :
  let c' := recordFailures [at_s 15; at_s 30; at_s 45; at_s 60; at_s 75] client0 in
  failureCount c' = 5 /\ circuitOpen c' = true /\ lastFailureTime c' = at_s 75.
Proof.
  destruct (X7_consecutive_failures [at_s 15; at_s 30; at_s 45; at_s 60; at_s 75]
              client0) as (F & O & L & _).
  - cbn. lia.
  - vm_compute. reflexivity.
  - cbv zeta. split; [exact F|]. split; [exact O|exact L].
Defined.

Lemma X8_reachable_breaker_invariant_witness :
  0 <= failureCount client_four <= 5
  /\ (circuitOpen client_four = true <-> failureCount client_four = 5).
Proof.
  destruct (X8_reachable_breaker_invariant newRequest_ok decode_two decode_none
              client_four client_four_reachable) as (H & O & _).
  split; [exact H|exact O].
Defined.

Lemma X9_poll_then_scrape_witness :
  exists c1 c2 out,
    collectQueueData newRequest_ok decode_two decode_none
      (poll_env (env_ok (at_s 0))) collector0
    = Some (c1, [EvHTTPDo "http://localhost:15672/api/queues" 0; EvRecordSuccess])
    /\ get c1 = ([q_healthy; q_unhealthy], true, None)
    /\ Collect (scrape_at (at_s 20)) c1 = Some (c2, out)
    /\ size (metrics c2 QueueDepthAlert) = 4%nat
    /\ metrics c2 QueueConsumers !! labelsOf q_healthy = Some 3%float.
Proof.
  assert (N : NoDup (labelsOf <$> [q_healthy; q_unhealthy])).
  { apply (bool_decide_unpack _). vm_compute. exact I. }
  assert (F : Since (now_check (scrape_at (at_s 20)))
                (now_stamp (poll_env (env_ok (at_s 0))))
              <= wrap64 (scrapeInterval collector0 * 2)).
  { vm_compute. discriminate. }
  destruct (X9_poll_then_scrape newRequest_ok decode_two decode_none
              (poll_env (env_ok (at_s 0))) (scrape_at (at_s 20)) collector0
              [q_healthy; q_unhealthy] client0
              [EvHTTPDo "http://localhost:15672/api/queues" 0; EvRecordSuccess]
              eq_refl N F)
    as (c1 & c2 & out & E & G & _ & E2 & H).
  exists c1, c2, out. split; [exact E|]. split; [exact G|]. split; [exact E2|].
  split.
  - apply (H QueueDepthAlert). simpl. tauto.
  - destruct (H QueueConsumers) as (_ & _ & L); [simpl; tauto|].
    apply (L q_healthy).
    + apply list_elem_of_In. simpl. tauto.
    + apply list_elem_of_In. left. vm_compute. reflexivity.
Defined.

Lemma collector0_running :
  running newRequest_ok decode_two decode_none collector0.
Proof. apply running_start, reach_NewClient. Qed.



Lemma X12_background_poller_witness :
  (exists c',
     backgroundCollection newRequest_ok decode_two decode_none
       [Tick (poll_env (env_ok (at_s 0))); Tick (poll_env (env_refused (at_s 15)))]
       collector0 = Some c'
     /\ scrapeInterval c' = scrapeInterval collector0)
  /\ backgroundCollection newRequest_ok decode_two decode_none
       [Tick (poll_env (env_ok (at_s 0)))]
       (NewCollector client0 NewMetrics (- (5 * Second))) = None.
Proof.
  split.
  - apply (proj1 (proj2 (X12_background_poller newRequest_ok decode_two decode_none
                           _ collector0))).
    reflexivity.
  - apply (proj1 (X12_background_poller newRequest_ok decode_two decode_none
                    _ (NewCollector client0 NewMetrics (- (5 * Second))))).
    vm_compute. discriminate.
Defined.


Lemma X14_startup_witness :
  startup newRequest_ok (env_ok (at_s 0)) config_negative
  = inr (NewCollector client0 NewMetrics (- (5 * Second)))
  /\ backgroundCollection newRequest_ok decode_two decode_none
       [Tick (poll_env (env_ok (at_s 15)))]
       (NewCollector client0 NewMetrics (- (5 * Second))) = None.
Proof.
  assert (E : startup newRequest_ok (env_ok (at_s 0)) config_negative
              = inr (NewCollector client0 NewMetrics (- (5 * Second))))
    by reflexivity.
  split; [exact E|].
  pose proof (X14_startup newRequest_ok decode_two decode_none
                (env_ok (at_s 0)) config_negative) as H.
  cbv zeta in H. rewrite E in H.
  destruct H as (_ & _ & _ & _ & _ & _ & _ & _ & P).
  apply P. vm_compute. reflexivity.
Defined.

(** ** The metric families *)

(** X15: the fifteen queue collectors are distinct gauge vectors, each one
    also among all collectors (which are pairwise distinct), so the type
    test of [ResetQueueMetrics] skips none of them: a reset empties every
    queue family, leaves the scrape and circuit-breaker families as they
    are, and a second reset changes nothing. *)
Theorem X15_reset_queue_metrics :
  NoDup GetAllCollectors
  /\ (forall v, In v GetQueueCollectors -> kind v = GaugeVec /\ In v GetAllCollectors)
  /\ (forall m v, In v GetQueueCollectors -> ResetQueueMetrics m v = ∅)
  /\ (forall m v, ~ In v GetQueueCollectors -> ResetQueueMetrics m v = m v)
  /\ (forall m v, ResetQueueMetrics (ResetQueueMetrics m) v = ResetQueueMetrics m v).
Proof.
  split; [|split; [|split; [|split]]].
  - apply (bool_decide_unpack _). vm_compute. exact I.
  - intros v H. simpl in H.
    repeat (destruct H as [<-|H]; [split; [reflexivity|simpl; tauto]|]). destruct H.
  - exact ResetQueueMetrics_queue.
  - exact ResetQueueMetrics_other.
  - intros m v. destruct v; reflexivity.
Qed.

Lemma updateQueueMetrics_family q m m' v :
  updateQueueMetrics q m = Some m' -> m' v = writeAll (samples v q) (m v).
Proof.
  intros E. destruct (updateQueueMetrics_spec q m) as (m1 & E1 & H).
  rewrite E in E1. injection E1 as ->. apply H.
Qed.

Lemma updateQueueMetrics_lookup q m m' v k x :
  updateQueueMetrics q m = Some m' -> (k, x) ∈ samples v q -> m' v !! k = Some x.
Proof.
  intros E H. rewrite (updateQueueMetrics_family _ _ _ v E).
  apply writeAll_lookup; [apply samples_NoDup|exact H].
Qed.

(** X16: rendering one record touches only the series whose first two
    labels are the record's name and vhost: every other series of every
    family reads as before, the families that are not queue families are
    unchanged, and a series that was not there before is one of a queue
    family with the record's labels. *)
Theorem X16_render_frame q m m' :
  updateQueueMetrics q m = Some m' ->
  (forall v k, take 2 k <> labelsOf q -> m' v !! k = m v !! k)
  /\ (forall v, ~ In v GetQueueCollectors -> m' v = m v)
  /\ (forall v k, k ∈ dom (m' v) ->
        k ∈ dom (m v) \/ (In v GetQueueCollectors /\ take 2 k = labelsOf q)).
Proof.
  intros E. split; [|split].
  - intros v k Hk. rewrite (updateQueueMetrics_family _ _ _ v E).
    apply writeAll_lookup_notin. intros Hin. apply Hk.
    eapply samples_prefix; eauto.
  - intros v Hv. rewrite (updateQueueMetrics_family _ _ _ v E).
    destruct v; try reflexivity; exfalso; apply Hv; simpl; tauto.
  - intros v k Hk. rewrite (updateQueueMetrics_family _ _ _ v E), dom_writeAll in Hk.
    apply elem_of_union in Hk as [Hk|Hk]; [auto|]. right.
    apply elem_of_list_to_set in Hk. split; [|eapply samples_prefix; eauto].
    destruct v; simpl; try tauto; by apply elem_of_nil in Hk.
Qed.

Lemma X16_render_frame_witness :
  exists m',
    updateQueueMetrics q_unhealthy NewMetrics = Some m'
    /\ m' QueueConsumers !! labelsOf q_healthy = None
    /\ m' ScrapeErrorsTotal = ∅.
Proof.
  destruct (updateQueueMetrics_spec q_unhealthy NewMetrics) as (m' & E & _).
  exists m'. split; [exact E|].
  destruct (X16_render_frame q_unhealthy NewMetrics m' E) as (F & O & _).
  split.
  - rewrite F; [reflexivity|]. vm_compute. discriminate.
  - rewrite O; [reflexivity|]. simpl. intuition discriminate.
Defined.

(** X17: after a record is rendered, the state family has the three series
    of the record, 1 under the record's state and 0 under the two others,
    while the messages family is written under the record's state only: the
    series it holds under the two other states are left as they were. *)
Theorem X17_state_one_hot q m m' :
  updateQueueMetrics q m = Some m' ->
  let stateLabel s := labelsOf q ++ [QueueState_string s] in
  m' QueueMessages !! stateLabel (GetQueueState q) = Some (float64 (Messages q))
  /\ m' metrics.QueueState !! stateLabel (GetQueueState q) = Some 1%float
  /\ (forall s, s <> GetQueueState q ->
        m' metrics.QueueState !! stateLabel s = Some 0%float)
  /\ (forall s, s <> GetQueueState q ->
        m' QueueMessages !! stateLabel s = m QueueMessages !! stateLabel s).
Proof.
  intros E. cbv zeta. split; [|split; [|split]].
  - eapply updateQueueMetrics_lookup; [exact E|]. cbn. apply list_elem_of_here.
  - eapply updateQueueMetrics_lookup; [exact E|].
    apply list_elem_of_In.
    unfold samples, flag. destruct (GetQueueState q); simpl; tauto.
  - intros s Hs. eapply updateQueueMetrics_lookup; [exact E|].
    apply list_elem_of_In.
    unfold samples, flag. destruct s, (GetQueueState q); simpl; try tauto;
      congruence.
  - intros s Hs. rewrite (updateQueueMetrics_family _ _ _ QueueMessages E).
    apply writeAll_lookup_notin. cbn. intros H.
    apply list_elem_of_singleton in H. apply Hs.
    injection H as H.
    destruct s, (GetQueueState q); try reflexivity; discriminate H.
Qed.

Lemma X17_state_one_hot_witness :
  exists m',
    updateQueueMetrics q_unhealthy NewMetrics = Some m'
    /\ m' QueueMessages !! ["orders"; "/"; "active"]%string = Some 20000%float
    /\ m' metrics.QueueState !! ["orders"; "/"; "active"]%string = Some 1%float
    /\ m' metrics.QueueState !! ["orders"; "/"; "idle"]%string = Some 0%float.
Proof.
  destruct (updateQueueMetrics_spec q_unhealthy NewMetrics) as (m' & E & _).
  exists m'. split; [exact E|].
  destruct (X17_state_one_hot q_unhealthy NewMetrics m' E) as (M & S & Z & _).
  split; [exact M|]. split; [exact S|].
  apply (Z QueueStateIdle). vm_compute. discriminate.
Defined.

(** X18: the alert series of a rendered record are 1 exactly when messages
    exceed 1000 (warning) and 10000 (critical), and utilisation is below 0.1
    (warning) and 0.01 (critical); a critical alert is never raised without
    its warning; and the health score written with them is at most 80 under
    a depth warning, 50 under a critical depth alert, 75 under a utilisation
    warning and 35 under a critical utilisation alert. *)
Theorem X18_alerts q m m' :
  updateQueueMetrics q m = Some m' ->
  let series fam sev := m' fam !! (labelsOf q ++ [sev]) in
  series QueueDepthAlert "warning"%string = Some (flag (1000 <? Messages q))
  /\ series QueueDepthAlert "critical"%string = Some (flag (10000 <? Messages q))
  /\ series QueueUtilizationAlert "warning"%string
     = Some (flag (ConsumerUtilisation q <? 0.1)%float)
  /\ series QueueUtilizationAlert "critical"%string
     = Some (flag (ConsumerUtilisation q <? 0.01)%float)
  /\ (series QueueDepthAlert "critical"%string = Some 1%float ->
      series QueueDepthAlert "warning"%string = Some 1%float)
  /\ (series QueueUtilizationAlert "critical"%string = Some 1%float ->
      series QueueUtilizationAlert "warning"%string = Some 1%float)
  /\ (series QueueDepthAlert "warning"%string = Some 1%float ->
      (healthScore q <=? 80)%float = true)
  /\ (series QueueDepthAlert "critical"%string = Some 1%float ->
      (healthScore q <=? 50)%float = true)
  /\ (series QueueUtilizationAlert "warning"%string = Some 1%float ->
      (healthScore q <=? 75)%float = true)
  /\ (series QueueUtilizationAlert "critical"%string = Some 1%float ->
      (healthScore q <=? 35)%float = true)
  /\ m' QueueHealthScore !! labelsOf q = Some (healthScore q).
Proof.
  intros E. cbv zeta.
  assert (DW := updateQueueMetrics_lookup q m m' QueueDepthAlert _ _ E
                  (list_elem_of_here _ _)).
  assert (DC := updateQueueMetrics_lookup q m m' QueueDepthAlert _ _ E
                  (list_elem_of_further _ _ _ (list_elem_of_here _ _))).
  assert (UW := updateQueueMetrics_lookup q m m' QueueUtilizationAlert _ _ E
                  (list_elem_of_here _ _)).
  assert (UC := updateQueueMetrics_lookup q m m' QueueUtilizationAlert _ _ E
                  (list_elem_of_further _ _ _ (list_elem_of_here _ _))).
  assert (HS := updateQueueMetrics_lookup q m m' QueueHealthScore _ _ E
                  (list_elem_of_here _ _)).
  cbn [fst snd] in *.
  rewrite DW, DC, UW, UC, HS.
  assert (Tr : (ConsumerUtilisation q <? 0.01)%float = true ->
               (ConsumerUtilisation q <? 0.1)%float = true).
  { rewrite !ltb_spec. intros L. eapply SFltb_leb_trans; [exact L|].
    vm_compute. reflexivity. }
  assert (Mr : (10000 <? Messages q) = true -> (1000 <? Messages q) = true) by lia.
  repeat (split; [reflexivity|]).
  unfold healthScore, flag.
  destruct (1000 <? Messages q) eqn:M1, (10000 <? Messages q) eqn:M2,
    (ConsumerUtilisation q <? 0.1)%float eqn:U1,
    (ConsumerUtilisation q <? 0.01)%float eqn:U2;
    try (specialize (Mr eq_refl); discriminate Mr);
    try (specialize (Tr eq_refl); discriminate Tr);
    destruct (1.0 <? GetRedeliverRate q)%float, (5.0 <? GetRedeliverRate q)%float;
    repeat split; intros H; try reflexivity;
    try (exfalso; revert H; vm_compute; congruence);
    try (vm_compute; reflexivity).
Qed.

Lemma X18_alerts_witness :
  exists m',
    updateQueueMetrics q_unhealthy NewMetrics = Some m'
    /\ m' QueueDepthAlert !! ["orders"; "/"; "critical"]%string = Some 1%float
    /\ m' QueueUtilizationAlert !! ["orders"; "/"; "warning"]%string = Some 1%float
    /\ (healthScore q_unhealthy <=? 35)%float = true.
Proof.
  destruct (updateQueueMetrics_spec q_unhealthy NewMetrics) as (m' & E & _).
  exists m'. split; [exact E|].
  destruct (X18_alerts q_unhealthy NewMetrics m' E)
    as (_ & DC & UW & UC & _ & _ & _ & _ & _ & H & _).
  split; [exact DC|]. split; [exact UW|]. apply H. exact UC.
Defined.

(** X19: what a scrape exports in the queue families is determined by the
    cached records and the staleness verdict alone: two collectors with the
    same cached records whose scrapes reach the same verdict export the same
    queue families, whatever their stores held before; in particular a
    second scrape with the same verdict repeats the first. A scrape leaves
    the cache, the timestamp, the interval and the client as they were. *)
Theorem X19_scrape_from_cache env env' c c' :
  cachedQueues c = cachedQueues c' ->
  isStale env c = isStale env' c' ->
  exists r out r' out',
    Collect env c = Some (r, out) /\ Collect env' c' = Some (r', out')
    /\ (forall v, In v GetQueueCollectors ->
          metrics r v = metrics r' v /\ In (v, metrics r v) out)
    /\ get r = get c /\ cacheTimestamp r = cacheTimestamp c
    /\ scrapeInterval r = scrapeInterval c /\ client r = client c
    /\ (isStale env' r = isStale env c ->
        exists r2 out2,
          Collect env' r = Some (r2, out2)
          /\ forall v, In v GetQueueCollectors -> metrics r2 v = metrics r v).
Proof.
  intros Q S.
  assert (Again : forall m env2,
            isStale env2 (setMetrics c m) = isStale env c ->
            (forall v, In v GetQueueCollectors ->
               m v = if isStale env c then ∅
                     else writeAll (flat_map (samples v) (cachedQueues c)) ∅) ->
            exists r2 out2,
              Collect env2 (setMetrics c m) = Some (r2, out2)
              /\ forall v, In v GetQueueCollectors -> metrics r2 v = m v).
  { intros m env2 S2 Hm. destruct (isStale env c) eqn:F.
    - destruct (Collect_stale env2 (setMetrics c m) S2) as (m2 & E2 & H2 & _).
      exists (setMetrics (setMetrics c m) m2), (collectMetrics m2).
      split; [exact E2|]. intros v Hv. cbn [metrics setMetrics].
      rewrite (H2 v Hv), (Hm v Hv). reflexivity.
    - destruct (Collect_fresh env2 (setMetrics c m) S2) as (m2 & E2 & H2 & _).
      exists (setMetrics (setMetrics c m) m2), (collectMetrics m2).
      split; [exact E2|]. intros v Hv. cbn [metrics setMetrics].
      rewrite (H2 v Hv), (Hm v Hv). reflexivity. }
  destruct (isStale env c) eqn:F; symmetry in S.
  - destruct (Collect_stale env c F) as (m1 & E1 & H1 & _).
    destruct (Collect_stale env' c' S) as (m2 & E2 & H2 & _).
    exists (setMetrics c m1), (collectMetrics m1), (setMetrics c' m2),
      (collectMetrics m2).
    split; [exact E1|]. split; [exact E2|].
    split; [intros v Hv; cbn [metrics setMetrics]; split;
            [rewrite (H1 v Hv), (H2 v Hv); reflexivity|apply collectMetrics_In]|].
    repeat (split; [reflexivity|]).
    intros S2. apply Again; [exact S2|exact H1].
  - destruct (Collect_fresh env c F) as (m1 & E1 & H1 & _).
    destruct (Collect_fresh env' c' S) as (m2 & E2 & H2 & _).
    exists (setMetrics c m1), (collectMetrics m1), (setMetrics c' m2),
      (collectMetrics m2).
    split; [exact E1|]. split; [exact E2|].
    split; [intros v Hv; cbn [metrics setMetrics]; split;
            [rewrite (H1 v Hv), (H2 v Hv), Q; reflexivity|apply collectMetrics_In]|].
    repeat (split; [reflexivity|]).
    intros S2. apply Again; [exact S2|exact H1].
Qed.

Lemma X19_scrape_from_cache_witness :
  exists r out r' out',
    Collect (scrape_at (at_s 5)) collector_fresh = Some (r, out)
    /\ Collect (scrape_at (at_s 20)) collector_refetched = Some (r', out')
    /\ metrics r QueueMessages = metrics r' QueueMessages
    /\ get r = get collector_fresh.
Proof.
  destruct (X19_scrape_from_cache (scrape_at (at_s 5)) (scrape_at (at_s 20))
              collector_fresh collector_refetched eq_refl eq_refl)
    as (r & out & r' & out' & E & E' & H & G & _).
  exists r, out, r', out'. split; [exact E|]. split; [exact E'|].
  split; [apply (H QueueMessages); simpl; tauto|exact G].
Defined.
